(** * Statistical analysis tool: a shallow embedding of [src/main.py]

    The program is a Streamlit page: it loads an uploaded CSV into a pandas
    DataFrame, lets the user pick numeric columns, draws one of four charts
    and shows/exports a table of descriptive statistics.

    Numbers.  The program computes on IEEE binary64 values.  Here a float64
    cell is an [option R]: [Some x] is the finite number [x] and [None] is
    NaN, the missing value of pandas; the two infinities are not
    represented.  Arithmetic is the exact arithmetic of the reals: rounding
    is left out, and so is the tolerance below which pandas takes a second
    moment for zero.  What is stated about computed values is therefore
    kept to what binary64 arithmetic does exactly: values on inputs where
    every intermediate result is a binary64 number, what a count decides,
    what a change of sign does, and what follows once the program reports
    a given value.  Everything else below is about what no arithmetic
    enters: which elements a run writes and in which order, which columns
    a chart or a table covers, what is written to the export, what raises.

    Library calls.  [main.py] is a sequence of calls into pandas, numpy,
    matplotlib and Streamlit.  Each call that matters below is embedded as
    the algorithm the library runs, named after the library function it
    follows.  The bars that numpy computes for a histogram are binary64
    work throughout and are not embedded: a histogram is held as the call
    that draws it. *)

From Stdlib Require Import String Ascii Bool Arith Lia ZArith List.
From Stdlib Require Import Reals Lra Psatz.
From Stdlib Require Import Permutation Sorted.
Import ListNotations.

Set Implicit Arguments.

(** ** Data model *)

(** A float64 cell; [None] is NaN. *)
Definition cell : Type := option R.

Definition NaN : cell := None.

(** A column of a DataFrame as [pd.read_csv] types it: numeric dtype
    (int64 or float64, held as float64 cells), bool dtype (every field is
    [True] or [False]) or object dtype (text). *)
Inductive ColData : Type :=
| Numeric (cells : list cell)
| Boolean (cells : list bool)
| Text (cells : list string).

(** A DataFrame as [pd.read_csv] builds it: named columns in file order. *)
Definition Table : Type := list (string * ColData).

(** The frame [df[selected_cols]] of numeric columns handed to the
    statistics and to the charts. *)
Definition NumFrame : Type := list (string * list cell).

(** A pandas Series of floats: labels with their values, in order. *)
Definition Series : Type := list (string * cell).

Definition col_len (c : ColData) : nat :=
  match c with
  | Numeric cells => length cells
  | Boolean cells => length cells
  | Text cells => length cells
  end.

(** [len(df)]: the number of rows. *)
Definition nrows (df : Table) : nat :=
  match df with
  | [] => 0
  | (_, c) :: _ => col_len c
  end.

(** [df.empty]: some axis has length 0. *)
Definition empty (df : Table) : bool :=
  (length df =? 0)%nat || (nrows df =? 0)%nat.

(** [df.select_dtypes(include=np.number).columns.tolist()]: bool is not a
    subtype of [np.number]. *)
Fixpoint select_dtypes_number (df : Table) : list string :=
  match df with
  | [] => []
  | (name, Numeric _) :: rest => name :: select_dtypes_number rest
  | (_, Boolean _) :: rest => select_dtypes_number rest
  | (_, Text _) :: rest => select_dtypes_number rest
  end.

(** Python exceptions that the modelled calls can raise. *)
Inductive exn : Type :=
| KeyError (key : option string)
| ValueError (msg : string)
| ParseError (msg : string).

(** [str(key)] for a label or for the Python value [None]. *)
Definition str_key (key : option string) : string :=
  match key with
  | Some k => k
  | None => "None"
  end.

(** [str(e)] *)
Definition str_exn (e : exn) : string :=
  match e with
  | KeyError key => str_key key
  | ValueError msg => msg
  | ParseError msg => msg
  end.

Inductive result (A : Type) : Type :=
| Ok (a : A)
| Raise (e : exn).

Arguments Ok {A} a.
Arguments Raise {A} e.

Definition bind {A B : Type} (r : result A) (k : A -> result B) : result B :=
  match r with
  | Ok a => k a
  | Raise e => Raise e
  end.

Notation "x <- r ;; k" := (bind r (fun x => k))
  (at level 61, r at next level, right associativity).

(** The first column with a given label. *)
Fixpoint column (df : Table) (k : string) : result ColData :=
  match df with
  | [] => Raise (KeyError (Some k))
  | (name, c) :: rest => if String.eqb name k then Ok c else column rest k
  end.

(** [df[key]] for a single label; [None] is the Python value [None]
    (what an empty select box returns), which is never a column label. *)
Definition getitem (df : Table) (key : option string) : result ColData :=
  match key with
  | None => Raise (KeyError None)
  | Some k => column df k
  end.

(** The float64 view of a column (the charts and moments read
    [df[col]] as floats; only numeric columns can be selected). *)
Definition as_float (c : ColData) : list cell :=
  match c with
  | Numeric cells => cells
  | Boolean cells => map (fun b : bool => if b then Some 1%R else Some 0%R) cells
  | Text cells => map (fun _ => NaN) cells
  end.

(** [df[cols]] for a list of labels: the sub-frame, in the order of
    [cols]; a label that is not a column raises [KeyError]. *)
Fixpoint getitems (df : Table) (cols : list string) : result NumFrame :=
  match cols with
  | [] => Ok []
  | c :: rest =>
      col <- getitem df (Some c) ;;
      sub <- getitems df rest ;;
      Ok ((c, as_float col) :: sub)
  end.

(** ** Reductions of [pandas.core.nanops] (with [skipna=True]) *)

Open Scope R_scope.

Definition notna (c : cell) : bool :=
  match c with
  | Some _ => true
  | None => false
  end.

(** [Series.count()]: the number of non-missing cells. *)
Definition count (col : list cell) : nat := length (filter notna col).

Fixpoint Rsum (l : list R) : R :=
  match l with
  | [] => 0
  | x :: rest => x + Rsum rest
  end.

(** [np.putmask(values, mask, 0)] followed by an elementwise map: a masked
    (NaN) position contributes 0 to every sum. *)
Definition masked (f : R -> R) (col : list cell) : list R :=
  map (fun c => match c with Some v => f v | None => 0 end) col.

(** [values.sum()] after the mask has been filled with 0. *)
Definition nansum (col : list cell) : R := Rsum (masked (fun v => v) col).

(** [nanops.nanmean]: sum over count, NaN when nothing is left. *)
Definition nanmean (col : list cell) : cell :=
  if (count col =? 0)%nat then NaN
  else Some (nansum col / INR (count col)).

(** [nanops.nanvar] with [ddof=1]: the two-pass algorithm; the divisor is
    [count - ddof], and the result is NaN when [count <= ddof]. *)
Definition nanvar (col : list cell) : cell :=
  let n := count col in
  if (n <=? 1)%nat then NaN
  else
    let avg := nansum col / INR n in
    let sqr := masked (fun v => (avg - v) ^ 2) col in
    Some (Rsum sqr / (INR n - 1)).

(** [nanops.nanstd]: the square root of [nanvar]. *)
Definition nanstd (col : list cell) : cell :=
  match nanvar col with
  | Some v => Some (sqrt v)
  | None => NaN
  end.

(** Sum of the squared deviations from the mean ([m2] in nanskew and
    nankurt) and of their third and fourth powers. *)
Definition deviations (col : list cell) : list R :=
  let mean := nansum col / INR (count col) in
  masked (fun v => v - mean) col.

Definition m2 (col : list cell) : R :=
  Rsum (map (fun a => a ^ 2) (deviations col)).

Definition m3 (col : list cell) : R :=
  Rsum (map (fun a => a ^ 2 * a) (deviations col)).

Definition m4 (col : list cell) : R :=
  Rsum (map (fun a => (a ^ 2) ^ 2) (deviations col)).

(** [nanops.nanskew]:
    [result = (count * (count - 1) ** 0.5 / (count - 2)) * (m3 / m2 ** 1.5)],
    and NaN where [count < 3].  Where [m2] is zero, [m3] is zero too and
    the quotient is the binary64 value of [0 / 0], NaN.  (pandas 2 put [0]
    in its place; which columns pandas takes to have [m2 == 0] is decided
    by a tolerance on binary64 values that differs between versions and is
    not embedded.) *)
Definition nanskew (col : list cell) : cell :=
  let n := INR (count col) in
  let result := (n * sqrt (n - 1) / (n - 2)) * (m3 col / Rpower (m2 col) (3 / 2)) in
  if (count col <? 3)%nat then NaN
  else if Req_dec_T (m2 col) 0 then NaN
  else Some result.

(** [nanops.nankurt]:
    [adj = 3 * (count - 1) ** 2 / ((count - 2) * (count - 3))],
    [numerator = count * (count + 1) * (count - 1) * m4],
    [denominator = (count - 2) * (count - 3) * m2 ** 2],
    [result = numerator / denominator - adj], and NaN where [count < 4].
    Where the denominator is zero the numerator is zero too, and the
    quotient is NaN as in [nanskew]. *)
Definition nankurt (col : list cell) : cell :=
  let n := INR (count col) in
  let adj := 3 * (n - 1) ^ 2 / ((n - 2) * (n - 3)) in
  let numerator := n * (n + 1) * (n - 1) * m4 col in
  let denominator := (n - 2) * (n - 3) * (m2 col) ^ 2 in
  let result := numerator / denominator - adj in
  if (count col <? 4)%nat then NaN
  else if Req_dec_T denominator 0 then NaN
  else Some result.

(** The non-missing values of a column, in order ([series.dropna()]). *)
Fixpoint valid (col : list cell) : list R :=
  match col with
  | [] => []
  | Some v :: rest => v :: valid rest
  | None :: rest => valid rest
  end.

(** [nanops.nanmin] and [nanops.nanmax]: NaN when no value is left. *)
Definition nanmin (col : list cell) : cell :=
  match valid col with
  | [] => NaN
  | x :: rest => Some (fold_left Rmin rest x)
  end.

Definition nanmax (col : list cell) : cell :=
  match valid col with
  | [] => NaN
  | x :: rest => Some (fold_left Rmax rest x)
  end.

(** Ascending sort of the values ([np.sort] inside [np.percentile]). *)
Fixpoint Rinsert (x : R) (l : list R) : list R :=
  match l with
  | [] => [x]
  | y :: rest => if Rle_dec x y then x :: l else y :: Rinsert x rest
  end.

Definition Rsort (l : list R) : list R := fold_right Rinsert [] l.

(** [Series.quantile(k/4)] with linear interpolation, as [describe] calls
    it for the percentiles 25, 50 and 75: the virtual index is
    [k/4 * (n - 1)]; the result interpolates between the order statistics
    on both sides of it. *)
Definition quantile4 (k : nat) (col : list cell) : cell :=
  let s := Rsort (valid col) in
  match s with
  | [] => NaN
  | _ :: _ =>
      let pos := (k * (length s - 1))%nat in
      let lo := (pos / 4)%nat in
      let hi := Nat.min (lo + 1) (length s - 1) in
      let frac := INR (pos mod 4) / 4 in
      let a := nth lo s 0 in
      let b := nth hi s 0 in
      Some (a + (b - a) * frac)
  end.

(** ** Statistics Engine: the table [stats] of tab 3 *)

(** The statistics DataFrame: column labels and one labelled row of
    float64 values per described column. *)
Record StatsFrame : Type := mkStats {
  columns : list string;
  rows : list (string * list cell)
}.

(** [describe_numeric_1d]: count, mean, std, min, the three percentiles
    and max of one column ([count] is stored as a float). *)
Definition describe_1d (col : list cell) : list cell :=
  [ Some (INR (count col)); nanmean col; nanstd col; nanmin col;
    quantile4 1 col; quantile4 2 col; quantile4 3 col; nanmax col ].

Definition describe_columns : list string :=
  ["count"; "mean"; "std"; "min"; "25%"; "50%"; "75%"; "max"]%string.

(** [frame.describe().T]: one row per column of the frame; a frame
    without columns cannot be described. *)
Definition describe_T (frame : NumFrame) : result StatsFrame :=
  match frame with
  | [] => Raise (ValueError "Cannot describe a DataFrame without columns")
  | _ :: _ =>
      Ok {| columns := describe_columns;
            rows := map (fun nc => (fst nc, describe_1d (snd nc))) frame |}
  end.

(** [frame.skew()] and [frame.kurtosis()]: a Series indexed by the column
    labels of the frame. *)
Definition skew (frame : NumFrame) : Series :=
  map (fun nc => (fst nc, nanskew (snd nc))) frame.

Definition kurtosis (frame : NumFrame) : Series :=
  map (fun nc => (fst nc, nankurt (snd nc))) frame.

(** Label lookup in a Series (first match), NaN for an absent label:
    [series.reindex(index)]. *)
Fixpoint reindex1 (s : Series) (label : string) : cell :=
  match s with
  | [] => NaN
  | (l, v) :: rest => if String.eqb l label then v else reindex1 rest label
  end.

Fixpoint list_eqb (a b : list string) : bool :=
  match a, b with
  | [], [] => true
  | x :: a', y :: b' => String.eqb x y && list_eqb a' b'
  | _, _ => false
  end.

(** The values a Series contributes to a new column of [stats]
    ([_reindex_for_setitem]): taken by position when the two indexes are
    equal, otherwise re-indexed by label. *)
Definition values_for_setitem (stats : StatsFrame) (s : Series) : list cell :=
  let index := map fst (rows stats) in
  if list_eqb (map fst s) index then map snd s
  else map (reindex1 s) index.

Fixpoint append_each (rs : list (string * list cell)) (vs : list cell)
  : list (string * list cell) :=
  match rs, vs with
  | (l, r) :: rs', v :: vs' => (l, r ++ [v]) :: append_each rs' vs'
  | _, _ => []
  end.

(** [stats[name] = series] for a label that is not yet a column of
    [stats]: the new column goes last. *)
Definition setitem (stats : StatsFrame) (name : string) (s : Series) : StatsFrame :=
  {| columns := columns stats ++ [name];
     rows := append_each (rows stats) (values_for_setitem stats s) |}.

(** Lines 144-146 of [main]. *)
Definition statistics (frame : NumFrame) : result StatsFrame :=
  stats <- describe_T frame ;;
  let stats := setitem stats "skewness" (skew frame) in
  let stats := setitem stats "kurtosis" (kurtosis frame) in
  Ok stats.

(** Position of a column label, and the value of a row under it. *)
Fixpoint index_of (name : string) (l : list string) : nat :=
  match l with
  | [] => 0
  | x :: rest => if String.eqb x name then 0 else S (index_of name rest)
  end.

Definition field (stats : StatsFrame) (name : string) (row : list cell) : option cell :=
  nth_error row (index_of name (columns stats)).

(** ** [Series.sort_values()] (ascending, [na_position='last']) *)

Definition num_leb (a b : string * R) : bool :=
  if Rle_dec (snd a) (snd b) then true else false.

Fixpoint insert_by_value (e : string * R) (l : list (string * R)) : list (string * R) :=
  match l with
  | [] => [e]
  | y :: rest => if num_leb e y then e :: l else y :: insert_by_value e rest
  end.

(** The non-missing entries of a Series, and the missing ones. *)
Fixpoint non_nans (s : Series) : list (string * R) :=
  match s with
  | [] => []
  | (l, Some v) :: rest => (l, v) :: non_nans rest
  | (_, None) :: rest => non_nans rest
  end.

Fixpoint nans (s : Series) : Series :=
  match s with
  | [] => []
  | (_, Some _) :: rest => nans rest
  | (l, None) :: rest => (l, NaN) :: nans rest
  end.

Definition isort (l : list (string * R)) : list (string * R) :=
  fold_right insert_by_value [] l.

Definition some_value (e : string * R) : string * cell := (fst e, Some (snd e)).

(** [nargsort]: the non-missing entries in ascending order of value,
    followed by the missing ones in their original order.  (The order
    numpy gives to entries of equal value is not specified; here they
    keep the order of an insertion sort.) *)
Definition sort_values (s : Series) : Series :=
  map some_value (isort (non_nans s)) ++ nans s.

(** ** Histogram: [ax.hist(values, bins=20)] *)

(** The histogram that [ax.hist] is asked to draw: the values and the
    number of bins. *)
Record Histogram : Type := mkHist {
  hist_values : list cell;
  hist_bins : nat
}.

(** [ax.hist]: matplotlib takes the range of the bars from the
    non-missing values, [(nanmin, nanmax)], and numpy refuses a range that
    is not finite: a column without any value has none. *)
Definition hist (col : list cell) (bins : nat) : result Histogram :=
  match nanmin col, nanmax col with
  | Some _, Some _ => Ok {| hist_values := col; hist_bins := bins |}
  | _, _ => Raise (ValueError "autodetected range of [nan, nan] is not finite")
  end.

(** ** Charts *)

Inductive PlotType : Type :=
| ScatterPlot
| BoxPlot
| DistributionPlot
| SkewnessAnalysis.

(** What each branch of the renderer draws. *)
Inductive Chart : Type :=
| Scatter (x_axis y_axis : string) (xs ys : list cell) (color : option string)
| Box (frame : NumFrame)
| Distribution (column : string) (h : Histogram) (color : option string)
| SkewBar (skew_values : Series).

(** ** The page: elements written by one run of [main] *)

Inductive Event : Type :=
| StTitle (text : string)
| StInfo (text : string)
| StError (text : string)
| StWarning (text : string)
| StSidebarHeader (text : string)
| StHeader (text : string)
| StSubheader (text : string)
| StPreview (head : Table)
| StJson (total_columns : nat) (numerical_columns selected_columns : list string)
| StPyplot (fig : Chart)
| PltClose
| StStyledDataframe (labels : list string) (body : list (string * list string))
| StDownloadButton (label : string) (data : list Byte.byte) (file_name mime : string).

(** One script run: the elements written so far, and how the run ended. *)
Definition App (A : Type) : Type := (list Event * result A)%type.

Definition ret {A : Type} (a : A) : App A := ([], Ok a).

Definition emit (e : Event) : App unit := ([e], Ok tt).

Definition lift {A : Type} (r : result A) : App A := ([], r).

Definition bindA {A B : Type} (m : App A) (k : A -> App B) : App B :=
  match snd m with
  | Ok a => (fst m ++ fst (k a), snd (k a))
  | Raise e => (fst m, Raise e)
  end.

Notation "x <~ m ;; k" := (bindA m (fun x => k))
  (at level 61, m at next level, right associativity).
Notation "m ;;; k" := (bindA m (fun _ => k))
  (at level 61, right associativity).

(** What the user did with the widgets of one run. *)
Record Session : Type := mkSession {
  uploaded_file : option string;
  picked_columns : option (list string);
  plot_type : PlotType;
  picked_color : string;
  x_choice : nat;
  y_choice : nat;
  column_choice : nat
}.

(** [st.multiselect(label, options, default)]: the default until the user
    touches the widget, then the picked options, each once. *)
Definition multiselect (options default : list string) (picked : option (list string))
  : list string :=
  match picked with
  | None => default
  | Some l => nodup string_dec (filter (fun c => existsb (String.eqb c) options) l)
  end.

(** [st.selectbox(label, options)]: one of the options (the first until
    the user picks another), or [None] when there is no option. *)
Definition selectbox (options : list string) (choice : nat) : option string :=
  match options with
  | [] => None
  | first :: _ => Some (nth choice options first)
  end.

Definition is_label (key : option string) (c : string) : bool :=
  match key with
  | Some k => String.eqb c k
  | None => false
  end.

Definition head (n : nat) (df : Table) : Table :=
  map (fun nc => (fst nc,
                  match snd nc with
                  | Numeric cells => Numeric (firstn n cells)
                  | Boolean cells => Boolean (firstn n cells)
                  | Text cells => Text (firstn n cells)
                  end)) df.

Section Pipeline.

Local Open Scope string_scope.

(** The CSV parser [pd.read_csv] on the bytes of the upload. *)
Variable read_csv : string -> result Table.

(** ["{:.2f}".format(x)] and Python's [repr(x)] for a float. *)
Variable format_2f : R -> string.
Variable float_repr : R -> string.

(** [os.linesep], the line terminator of [to_csv]. *)
Variable linesep : string.

(** Lines 14-20.  ([st.cache_data] memoises on the file content; the
    function is a function of that content.) *)
Definition load_data (file : string) : App (option Table) :=
  match read_csv file with
  | Ok df => ret (Some df)
  | Raise e =>
      emit (StError ("Error loading file: " ++ str_exn e)) ;;;
      ret None
  end.

(** [df is None or df.empty] *)
Definition none_or_empty (df : option Table) : bool :=
  match df with
  | None => true
  | Some t => empty t
  end.

(** Lines 60-74. *)
Definition tab1 (df : Table) (numeric_cols selected_cols : list string) : App unit :=
  emit (StHeader "Data Overview") ;;;
  emit (StSubheader "Dataset Preview") ;;;
  emit (StPreview (head 10 df)) ;;;
  emit (StSubheader "Column Summary") ;;;
  emit (StJson (length df) numeric_cols selected_cols).

(** Lines 97-134: the figure of the chosen kind. *)
Definition render (df : Table) (selected_cols : list string) (s : Session) : App Chart :=
  let color_palette :=
    match plot_type s with
    | ScatterPlot | DistributionPlot => Some (picked_color s)
    | _ => None
    end in
  match plot_type s with
  | ScatterPlot =>
      let x_axis := selectbox selected_cols (x_choice s) in
      let y_axis := selectbox (filter (fun c => negb (is_label x_axis c)) selected_cols)
                              (y_choice s) in
      xs <~ lift (getitem df x_axis) ;;
      ys <~ lift (getitem df y_axis) ;;
      ret (Scatter (str_key x_axis) (str_key y_axis)
                   (as_float xs) (as_float ys) color_palette)
  | BoxPlot =>
      frame <~ lift (getitems df selected_cols) ;;
      ret (Box frame)
  | DistributionPlot =>
      let selected := selectbox selected_cols (column_choice s) in
      values <~ lift (getitem df selected) ;;
      h <~ lift (hist (as_float values) 20) ;;
      ret (Distribution (str_key selected) h color_palette)
  | SkewnessAnalysis =>
      frame <~ lift (getitems df selected_cols) ;;
      let skew_values := sort_values (skew frame) in
      ret (SkewBar skew_values)
  end.

(** Lines 76-138. *)
Definition tab2 (df : Table) (selected_cols : list string) (s : Session) : App unit :=
  emit (StHeader "Data Visualizations") ;;;
  fig <~ render df selected_cols s ;;
  emit (StPyplot fig) ;;;
  emit PltClose.

(** The text of [stats.to_csv()]: the csv writer quotes a label that holds
    the delimiter, the quote character or a line break, doubling the quote
    characters inside; a number is written with [repr], NaN as the empty
    field. *)
Definition dquote : ascii := ascii_of_nat 34.

Fixpoint needs_quote (s : string) : bool :=
  match s with
  | EmptyString => false
  | String c rest =>
      Ascii.eqb c "," || Ascii.eqb c dquote || Ascii.eqb c "010" || Ascii.eqb c "013"
      || needs_quote rest
  end.

Fixpoint double_quotes (s : string) : string :=
  match s with
  | EmptyString => EmptyString
  | String c rest =>
      if Ascii.eqb c dquote then String c (String c (double_quotes rest))
      else String c (double_quotes rest)
  end.

Definition csv_text (s : string) : string :=
  if needs_quote s then String dquote (double_quotes s ++ String dquote EmptyString)
  else s.

Definition csv_number (c : cell) : string :=
  match c with
  | Some v => float_repr v
  | None => ""
  end.

Definition csv_line (fields : list string) : string :=
  String.concat "," fields ++ linesep.

Definition csv_row (r : string * list cell) : string :=
  csv_line (csv_text (fst r) :: map csv_number (snd r)).

Definition to_csv (stats : StatsFrame) : string :=
  csv_line ("" :: map csv_text (columns stats))
  ++ String.concat "" (map csv_row (rows stats)).

(** [text.encode('utf-8')].  A Python string is held here as the bytes of
    its UTF-8 form, so encoding lists those bytes. *)
Definition encode_utf8 (text : string) : list Byte.byte := list_byte_of_string text.

(** [stats.style.format("{:.2f}")]: the text shown for each cell; the
    Styler reads [stats] and leaves it as it is.  (The colour gradient is
    not modelled.) *)
Definition format_cell (c : cell) : string :=
  match c with
  | Some v => format_2f v
  | None => "nan"
  end.

Definition style_format (stats : StatsFrame) : list (string * list string) :=
  map (fun r => (fst r, map format_cell (snd r))) (rows stats).

(** Lines 140-159. *)
Definition tab3 (df : Table) (selected_cols : list string) : App unit :=
  emit (StHeader "Statistical Summary") ;;;
  frame <~ lift (getitems df selected_cols) ;;
  stats <~ lift (statistics frame) ;;
  emit (StStyledDataframe (columns stats) (style_format stats)) ;;;
  let csv := encode_utf8 (to_csv stats) in
  emit (StDownloadButton "Download Statistics" csv "statistical_summary.csv" "text/csv").

(** Lines 40-159: the page once a non-empty table is loaded. *)
Definition page (df : Table) (s : Session) : App unit :=
  emit (StSidebarHeader "Analysis Controls") ;;;
  let numeric_cols := select_dtypes_number df in
  match numeric_cols with
  | [] => emit (StError "No numerical columns found in the dataset")
  | _ :: _ =>
      let selected_cols :=
        multiselect numeric_cols (firstn 2 numeric_cols) (picked_columns s) in
      match selected_cols with
      | [] => emit (StWarning "Please select at least one numerical column")
      | _ :: _ =>
          tab1 df numeric_cols selected_cols ;;;
          tab2 df selected_cols s ;;;
          tab3 df selected_cols
      end
  end.

(** Lines 23-38, then [page]. *)
Definition main (s : Session) : App unit :=
  emit (StTitle "📊 Advanced Statistical Analysis Tool") ;;;
  match uploaded_file s with
  | None => emit (StInfo "Please upload a CSV file to begin analysis")
  | Some file =>
      df <~ load_data file ;;
      if none_or_empty df
      then emit (StError "Invalid or empty file. Please upload a valid CSV.")
      else
        match df with
        | Some df => page df s
        | None => ret tt
        end
  end.

End Pipeline.

(** ** Definitions for the statements *)

(** *** Views of the program used in the statements *)

(** The column labels of [stats] after lines 144-146, and the row of one
    column of the frame. *)
Definition stats_columns : list string :=
  ["count"; "mean"; "std"; "min"; "25%"; "50%"; "75%"; "max"; "skewness"; "kurtosis"]%string.

Definition stats_row (nc : string * list cell) : string * list cell :=
  (fst nc, describe_1d (snd nc) ++ [nanskew (snd nc); nankurt (snd nc)]).

(** The columns [main] works on: the multiselect over the numeric
    columns, the first two by default (lines 44-51). *)
Definition selected_columns (df : Table) (s : Session) : list string :=
  let numeric_cols := select_dtypes_number df in
  multiselect numeric_cols (firstn 2 numeric_cols) (picked_columns s).

(** The skewness column of the statistics table, as a Series. *)
Definition skewness_column (stats : StatsFrame) : Series :=
  map (fun r => (fst r, nth (index_of "skewness" (columns stats)) (snd r) NaN))
      (rows stats).

(** The title of the page and the message of the guard at line 36. *)
Definition title : Event := StTitle "📊 Advanced Statistical Analysis Tool".

Definition invalid_or_empty : Event :=
  StError "Invalid or empty file. Please upload a valid CSV.".

(** What [main] does with the value that [load_data] returned (lines
    35-159): the caller's side of the load. *)
Definition after_load (format_2f float_repr : R -> string) (linesep : string)
           (df : option Table) (s : Session) : App unit :=
  if none_or_empty df
  then emit (StError "Invalid or empty file. Please upload a valid CSV.")
  else
    match df with
    | Some df => page format_2f float_repr linesep df s
    | None => ret tt
    end.



(** The row of the displayed table for one column: the same stored
    statistics, each shown with two decimals. *)
Definition display_row (format_2f : R -> string) (nc : string * list cell)
  : string * list string :=
  (fst nc, map (format_cell format_2f) (snd (stats_row nc))).


(** *** What the specification says, in its own words *)

(** "sample standard deviation (denominator n-1)" of the non-missing
    values. *)
Definition sample_mean (xs : list R) : R := Rsum xs / INR (length xs).

Definition sample_std (xs : list R) : cell :=
  if (length xs <? 2)%nat then NaN
  else
    let mu := sample_mean xs in
    Some (sqrt (Rsum (map (fun x => (x - mu) ^ 2) xs) / (INR (length xs) - 1))).

(** The non-missing values of a column are all the same number [v]. *)
Definition constant (v : R) (col : list cell) : Prop :=
  forall x, In (Some x) col -> x = v.




Definition snoc (s : string) (c : ascii) : string := (s ++ String c EmptyString)%string.








(** Ascending order of float cells with NaN after every number. *)
Definition cell_le (a b : cell) : Prop :=
  match a, b with
  | Some x, Some y => x <= y
  | _, None => True
  | None, Some _ => False
  end.

(** Ascending order of labelled numbers. *)
Definition value_le (a b : string * R) : Prop := snd a <= snd b.

(** The four failures of the specification, each with the guard of [main]
    or [load_data] that detects it. *)
Inductive Failure : Type :=
| LoadFailure
| EmptyDataset
| NoNumericColumns
| NoColumnsSelected.

Definition failure (read_csv : string -> result Table) (file : string) (s : Session)
  : option Failure :=
  match read_csv file with
  | Raise _ => Some LoadFailure
  | Ok df =>
      if empty df then Some EmptyDataset
      else
        match select_dtypes_number df with
        | [] => Some NoNumericColumns
        | _ :: _ =>
            match selected_columns df s with
            | [] => Some NoColumnsSelected
            | _ :: _ => None
            end
        end
  end.

(** A message shown to the user, and an element of one of the three tabs
    (overview, chart, statistics). *)
Definition is_message (e : Event) : bool :=
  match e with
  | StError _ | StWarning _ => true
  | _ => false
  end.

Definition is_stage (e : Event) : bool :=
  match e with
  | StHeader _ | StSubheader _ | StPreview _ | StJson _ _ _
  | StPyplot _ | PltClose | StStyledDataframe _ _ | StDownloadButton _ _ _ _ => true
  | _ => false
  end.

(** A run that stopped on a failure: it returned, the last thing it
    wrote is a message, and it wrote no element of a later stage. *)
Definition halted (out : App unit) : Prop :=
  snd out = Ok tt /\
  (exists before message,
     fst out = before ++ [message] /\ is_message message = true) /\
  existsb is_stage (fst out) = false.

(** *** Claims as the specification states them, refuted below *)

(** The claim as the specification words it: on a column of identical
    values the table has std 0.0 and NaN for skewness and kurtosis. *)
Definition degenerate_reported_as_nan (frame : NumFrame) (name : string) : Prop :=
  exists stats row,
    statistics frame = Ok stats /\ In (name, row) (rows stats) /\
    field stats "std" row = Some (Some 0) /\
    field stats "skewness" row = Some NaN /\
    field stats "kurtosis" row = Some NaN.

(** The claim as the specification words it: what the caller reports for
    a table without rows differs from what it reports when the loader
    failed (and returned [None]). *)
Definition empty_reported_apart (format_2f float_repr : R -> string) (linesep : string)
  : Prop :=
  forall (df : Table) (s : Session),
    nrows df = 0%nat ->
    after_load format_2f float_repr linesep (Some df) s
    <> after_load format_2f float_repr linesep None s.

(** The claim as the specification words it: a scatter chart comes out
    only of a selection of exactly two columns. *)
Definition scatter_needs_exactly_two (df : Table) (s : Session) : Prop :=
  forall fig,
    plot_type s = ScatterPlot ->
    snd (render df (selected_columns df s) s) = Ok fig ->
    length (selected_columns df s) = 2%nat.

(** *** Example inputs *)

(** A column of identical values, and a column of one value. *)
Definition fives : list cell := [Some 5; Some 5; Some 5; Some 5].

Definition lone_five : list cell := [Some 5].

(** The table of the worked example of the specification, and the frame
    of its two columns. *)
Definition example_table : Table :=
  [ ("a"%string, Numeric [Some 1; Some 2; Some 3]);
    ("b"%string, Numeric [Some 2; Some 4; Some 6]) ].

Definition example_frame : NumFrame :=
  [ ("a"%string, [Some 1; Some 2; Some 3]);
    ("b"%string, [Some 2; Some 4; Some 6]) ].

(** A table with three numeric columns. *)
Definition distribution_session : Session :=
  {| uploaded_file := Some "a,b"%string;
     picked_columns := None;
     plot_type := DistributionPlot;
     picked_color := "#1f77b4";
     x_choice := 0; y_choice := 0; column_choice := 0 |}.

Definition three_table : Table :=
  [ ("a"%string, Numeric [Some 1; Some 2]);
    ("b"%string, Numeric [Some 3; Some 4]);
    ("c"%string, Numeric [Some 5; Some 6]) ].

(** Sessions that ask for the skewness chart, for the scatter chart,
    and a plain upload (box plot). *)
Definition skewness_session (picked : option (list string)) : Session :=
  {| uploaded_file := Some "a,b"%string;
     picked_columns := picked;
     plot_type := SkewnessAnalysis;
     picked_color := "#1f77b4";
     x_choice := 0; y_choice := 0; column_choice := 0 |}.

Definition scatter_session (picked : option (list string)) : Session :=
  {| uploaded_file := Some "a,b,c"%string;
     picked_columns := picked;
     plot_type := ScatterPlot;
     picked_color := "#1f77b4";
     x_choice := 0; y_choice := 0; column_choice := 0 |}.

Definition upload (file : string) (picked : option (list string)) : Session :=
  {| uploaded_file := Some file;
     picked_columns := picked;
     plot_type := BoxPlot;
     picked_color := "#1f77b4";
     x_choice := 0; y_choice := 0; column_choice := 0 |}.

(** A line break, and the text of four CSV files: an empty file, a
    header without rows, a column of text, and the worked example. *)
Definition nl : string := String "010" EmptyString.

Definition empty_file : string := "".

Definition header_only_file : string := "a,b".

Definition text_file : string := "name" ++ nl ++ "x" ++ nl ++ "y".

Definition numbers_file : string := "a,b" ++ nl ++ "1,2" ++ nl ++ "2,4" ++ nl ++ "3,6".

(** The fields of one line, split at the commas. *)
Fixpoint split_commas (cur line : string) : list string :=
  match line with
  | EmptyString => [cur]
  | String c rest =>
      if Ascii.eqb c "," then cur :: split_commas EmptyString rest
      else split_commas (snoc cur c) rest
  end.

Fixpoint one_line (text : string) : bool :=
  match text with
  | EmptyString => true
  | String c rest =>
      negb (Ascii.eqb c "010" || Ascii.eqb c "013" || Ascii.eqb c dquote) && one_line rest
  end.

(** [pd.read_csv] on the example files.  An empty file has no columns to
    parse ([EmptyDataError]); a file of one line is a header: its fields
    are the columns of a table without rows; the two files with rows are
    read as the tables they spell.  Text beyond these is outside the
    examples and is refused. *)
Definition toy_read_csv (file : string) : result Table :=
  if String.eqb file empty_file
  then Raise (ParseError "No columns to parse from file")
  else if String.eqb file text_file
  then Ok [("name"%string, Text ["x"; "y"]%string)]
  else if String.eqb file numbers_file
  then Ok example_table
  else if one_line file
  then Ok (map (fun name => (name, Text [])) (split_commas EmptyString file))
  else Raise (ParseError "not one of the example files").

(** A number format for the examples. *)
Definition toy_format (x : R) : string := "0.00".




(** *** Definitions for the further properties *)

(** The elements of tab 1 (lines 60-74). *)
Definition overview (df : Table) (numeric_cols selected_cols : list string) : list Event :=
  [ StHeader "Data Overview"; StSubheader "Dataset Preview"; StPreview (head 10 df);
    StSubheader "Column Summary"; StJson (length df) numeric_cols selected_cols ].

(** The elements of tab 2 for a figure or for an exception of the
    renderer (lines 76-138). *)
Definition chart_tab (r : result Chart) : list Event :=
  StHeader "Data Visualizations"
  :: match r with
     | Ok fig => [StPyplot fig; PltClose]
     | Raise _ => []
     end.

(** The elements of tab 3 for the frame of the selected columns
    (lines 140-159). *)
Definition statistics_tab (format_2f float_repr : R -> string) (linesep : string)
           (frame : NumFrame) : list Event :=
  [ StHeader "Statistical Summary";
    StStyledDataframe stats_columns (map (display_row format_2f) frame);
    StDownloadButton "Download Statistics"
      (encode_utf8 (to_csv float_repr linesep (mkStats stats_columns (map stats_row frame))))
      "statistical_summary.csv" "text/csv" ].

(** A figure, the statistics table or the download. *)
Definition is_result (e : Event) : bool :=
  match e with
  | StPyplot _ | StStyledDataframe _ _ | StDownloadButton _ _ _ _ => true
  | _ => false
  end.

(** The exception of [ax.hist] on a column without values. *)
Definition no_finite_range : exn :=
  ValueError "autodetected range of [nan, nan] is not finite".

(** A run on the worked example that asks for the scatter chart with only
    column a selected, and one that asks for the box plot. *)
Definition one_column_scatter : Session :=
  {| uploaded_file := Some numbers_file;
     picked_columns := Some ["a"%string];
     plot_type := ScatterPlot;
     picked_color := "#1f77b4";
     x_choice := 0; y_choice := 0; column_choice := 0 |}.

(** A table whose only column is numeric and holds no value. *)
Definition gap_table : Table := [("a"%string, Numeric [NaN; NaN])].

(** A column after a change of unit and origin: every value [v] becomes
    [k * v + c]; missing cells stay missing. *)
Definition rescale (k c : R) (col : list cell) : list cell :=
  map (fun x => match x with
                | Some v => Some (k * v + c)
                | None => NaN
                end) col.

(** The image of a result under a map of the reals; NaN stays NaN. *)
Definition on_number (f : R -> R) (x : cell) : cell :=
  match x with
  | Some v => Some (f v)
  | None => NaN
  end.

(** * Proofs *)

(** Reads [field stats name row] off a row built by [stats_row]. *)
Ltac read_fields :=
  unfold field, stats_columns, stats_row, describe_1d;
  cbn [columns index_of String.eqb Ascii.eqb Bool.eqb app nth_error fst snd].

Ltac read_fields_in H :=
  unfold field, stats_columns, stats_row, describe_1d in H;
  cbn [columns index_of String.eqb Ascii.eqb Bool.eqb app nth_error fst snd] in H.

(** ** Lemmas on the reductions *)

Lemma count_valid (col : list cell) : count col = length (valid col).
Proof.
  unfold count. induction col as [| [x |] rest IH]; simpl; auto.
Qed.

(** A sum over the masked column is the sum over its non-missing values,
    for any map that sends the filled-in 0 to 0. *)
Lemma Rsum_masked (g f : R -> R) (col : list cell) :
  g 0 = 0 ->
  Rsum (map g (masked f col)) = Rsum (map (fun x => g (f x)) (valid col)).
Proof.
  intros Hg. unfold masked.
  induction col as [| [x |] rest IH]; simpl.
  - reflexivity.
  - rewrite IH. reflexivity.
  - rewrite IH, Hg. lra.
Qed.

Lemma nansum_valid (col : list cell) : nansum col = Rsum (valid col).
Proof.
  unfold nansum, masked. induction col as [| [x |] rest IH]; simpl.
  - reflexivity.
  - rewrite IH. reflexivity.
  - rewrite IH. lra.
Qed.

Lemma Rsum_map_ext (f g : R -> R) (l : list R) :
  (forall x, In x l -> f x = g x) -> Rsum (map f l) = Rsum (map g l).
Proof.
  induction l as [| a l IH]; simpl; intros H.
  - reflexivity.
  - rewrite (H a) by auto. rewrite IH by auto. reflexivity.
Qed.

(** *** The shape of the statistics table *)

Lemma list_eqb_refl (l : list string) : list_eqb l l = true.
Proof.
  induction l as [| a l IH]; simpl; [reflexivity |].
  rewrite String.eqb_refl, IH. reflexivity.
Qed.

Lemma append_each_map (A : Type) (lab : A -> string) (f : A -> list cell)
      (g : A -> cell) (l : list A) :
  append_each (map (fun a => (lab a, f a)) l) (map g l)
  = map (fun a => (lab a, f a ++ [g a])) l.
Proof.
  induction l as [| a l IH]; simpl; [reflexivity |].
  rewrite IH. reflexivity.
Qed.

Lemma setitem_aligned (A : Type) (lab : A -> string) (f : A -> list cell)
      (g : A -> cell) (cols : list string) (name : string) (l : list A) :
  setitem (mkStats cols (map (fun a => (lab a, f a)) l)) name
          (map (fun a => (lab a, g a)) l)
  = mkStats (cols ++ [name]) (map (fun a => (lab a, f a ++ [g a])) l).
Proof.
  unfold setitem, values_for_setitem. simpl.
  rewrite !map_map. simpl. rewrite list_eqb_refl.
  rewrite <- (append_each_map lab f g l). reflexivity.
Qed.

(** On a frame with at least one column the statistics are computed, one
    row per column of the frame, in the order of the frame. *)
Lemma statistics_ok (frame : NumFrame) :
  frame <> [] ->
  statistics frame = Ok (mkStats stats_columns (map stats_row frame)).
Proof.
  intros Hne. unfold statistics, describe_T.
  destruct frame as [| nc rest] eqn:E; [contradiction |].
  rewrite <- E. simpl bind. unfold skew, kurtosis.
  rewrite (setitem_aligned fst (fun nc => describe_1d (snd nc))
                           (fun nc => nanskew (snd nc))).
  rewrite (setitem_aligned fst
             (fun nc => describe_1d (snd nc) ++ [nanskew (snd nc)])
             (fun nc => nankurt (snd nc))).
  reflexivity.
Qed.

(** ** C1: columns of identical values *)

Lemma Rsum_zero (l : list R) : (forall x, In x l -> x = 0) -> Rsum l = 0.
Proof.
  induction l as [| x rest IH]; intros H; simpl; [reflexivity |].
  rewrite (H x (or_introl eq_refl)), IH; [lra |].
  intros y Hy. apply H. right. exact Hy.
Qed.

(** A mean is reported only for a column with a value, and it is the sum
    over the count. *)
Lemma nanmean_reported (col : list cell) (v : R) :
  nanmean col = Some v -> (0 < count col)%nat /\ nansum col / INR (count col) = v.
Proof.
  unfold nanmean. destruct (count col =? 0)%nat eqn:E; [discriminate |].
  intros H. injection H as <-. apply Nat.eqb_neq in E. split; [lia | reflexivity].
Qed.

(** Where the mean comes out as the common value, every deviation from
    it is zero, and so are the sums of their powers. *)
Lemma constant_deviations (v : R) (col : list cell) :
  constant v col -> nansum col / INR (count col) = v ->
  forall a, In a (deviations col) -> a = 0.
Proof.
  intros Hc Hmean a Ha. unfold deviations, masked in Ha. rewrite Hmean in Ha.
  apply in_map_iff in Ha. destruct Ha as [[x |] [Hx Hin]].
  - rewrite (Hc x Hin) in Hx. lra.
  - congruence.
Qed.

Lemma constant_m2 (v : R) (col : list cell) :
  constant v col -> nansum col / INR (count col) = v -> m2 col = 0.
Proof.
  intros Hc Hmean. pose proof (constant_deviations Hc Hmean) as Hd.
  unfold m2. apply Rsum_zero. intros y Hy.
  apply in_map_iff in Hy. destruct Hy as [a [<- Ha]]. rewrite (Hd a Ha). lra.
Qed.

Lemma constant_nanstd (v : R) (col : list cell) :
  constant v col -> nansum col / INR (count col) = v -> (2 <= count col)%nat ->
  nanstd col = Some 0.
Proof.
  intros Hc Hmean Hn. unfold nanstd, nanvar.
  destruct (count col <=? 1)%nat eqn:Hle; [apply Nat.leb_le in Hle; lia |].
  f_equal. rewrite Hmean.
  replace (Rsum (masked (fun x => (v - x) ^ 2) col)) with 0.
  - unfold Rdiv. rewrite Rmult_0_l. apply sqrt_0.
  - symmetry. apply Rsum_zero. intros y Hy. unfold masked in Hy.
    apply in_map_iff in Hy. destruct Hy as [[x |] [Hx Hin]].
    + rewrite (Hc x Hin) in Hx. lra.
    + congruence.
Qed.

Lemma constant_nanskew (v : R) (col : list cell) :
  constant v col -> nansum col / INR (count col) = v -> nanskew col = NaN.
Proof.
  intros Hc Hmean. unfold nanskew.
  destruct (count col <? 3)%nat; [reflexivity |].
  destruct (Req_dec_T (m2 col) 0) as [_ | Hne]; [reflexivity |].
  destruct (Hne (constant_m2 Hc Hmean)).
Qed.

Lemma constant_nankurt (v : R) (col : list cell) :
  constant v col -> nansum col / INR (count col) = v -> nankurt col = NaN.
Proof.
  intros Hc Hmean. unfold nankurt.
  destruct (count col <? 4)%nat; [reflexivity |].
  destruct (Req_dec_T _ 0) as [_ | Hne]; [reflexivity |].
  exfalso. apply Hne. rewrite (constant_m2 Hc Hmean). ring.
Qed.

(** What the counts alone decide: std needs two values, skewness three
    and kurtosis four. *)
Lemma short_nanstd (col : list cell) : (count col < 2)%nat -> nanstd col = NaN.
Proof.
  intros Hn. unfold nanstd, nanvar.
  destruct (count col <=? 1)%nat eqn:E; [reflexivity | apply Nat.leb_gt in E; lia].
Qed.

Lemma short_nanskew (col : list cell) : (count col < 3)%nat -> nanskew col = NaN.
Proof.
  intros Hn. unfold nanskew.
  destruct (count col <? 3)%nat eqn:E; [reflexivity | apply Nat.ltb_ge in E; lia].
Qed.

Lemma short_nankurt (col : list cell) : (count col < 4)%nat -> nankurt col = NaN.
Proof.
  intros Hn. unfold nankurt.
  destruct (count col <? 4)%nat eqn:E; [reflexivity | apply Nat.ltb_ge in E; lia].
Qed.

(** C1 (amended).  For every column of the frame whose non-missing values
    are all the same number [v], the statistics are computed without an
    error.  The counts alone make std NaN for a single value, skewness
    NaN below three values and kurtosis NaN below four.  Where the mean of
    the column is reported as [v] itself, every deviation from it is
    zero: std is 0.0 from two values on, and skewness and kurtosis are
    NaN at every count.  (In the exact arithmetic of this embedding the
    mean of such a column always is [v]; in binary64 it need not be, as on
    0.1, 0.1, 0.1, and nothing is stated for that case.) *)
Theorem constant_column_statistics
        (frame : NumFrame) (name : string) (col : list cell) (v : R) :
  In (name, col) frame -> constant v col ->
  exists stats row,
    statistics frame = Ok stats /\ In (name, row) (rows stats) /\
    ((count col < 2)%nat -> field stats "std" row = Some NaN) /\
    ((count col < 3)%nat -> field stats "skewness" row = Some NaN) /\
    ((count col < 4)%nat -> field stats "kurtosis" row = Some NaN) /\
    (field stats "mean" row = Some (Some v) ->
     ((2 <= count col)%nat -> field stats "std" row = Some (Some 0)) /\
     field stats "skewness" row = Some NaN /\
     field stats "kurtosis" row = Some NaN).
Proof.
  intros Hin Hc.
  assert (Hne : frame <> []) by (intros ->; contradiction).
  exists (mkStats stats_columns (map stats_row frame)).
  exists (snd (stats_row (name, col))).
  split; [apply statistics_ok; exact Hne |].
  split; [apply (in_map stats_row) in Hin; exact Hin |].
  read_fields.
  split; [intros Hn; rewrite (short_nanstd col Hn); reflexivity |].
  split; [intros Hn; rewrite (short_nanskew col Hn); reflexivity |].
  split; [intros Hn; rewrite (short_nankurt col Hn); reflexivity |].
  intros Hmean. injection Hmean as Hmean.
  destruct (nanmean_reported col Hmean) as [_ Hv].
  split; [intros Hn; rewrite (constant_nanstd Hc Hv Hn); reflexivity |].
  rewrite (constant_nanskew Hc Hv), (constant_nankurt Hc Hv). split; reflexivity.
Qed.

Lemma fives_constant : constant 5 fives.
Proof.
  intros x Hx. unfold fives in Hx. simpl in Hx.
  repeat (destruct Hx as [Hx | Hx]; [congruence |]). contradiction.
Qed.

Lemma constant_column_statistics_witness :
  exists stats row,
    statistics [("a"%string, fives)] = Ok stats /\ In ("a"%string, row) (rows stats) /\
    field stats "mean" row = Some (Some 5) /\
    field stats "std" row = Some (Some 0) /\
    field stats "skewness" row = Some NaN /\
    field stats "kurtosis" row = Some NaN.
Proof.
  destruct (@constant_column_statistics [("a"%string, fives)] "a"%string fives 5
              (or_introl eq_refl) fives_constant)
    as (stats & row & Hstats & Hrow & _ & _ & _ & Hmean).
  exists stats, row.
  split; [exact Hstats |]. split; [exact Hrow |].
  assert (Hfield : field stats "mean" row = Some (Some 5)).
  { rewrite statistics_ok in Hstats by discriminate. injection Hstats as <-.
    cbn [rows map] in Hrow. destruct Hrow as [Heq | []].
    unfold stats_row in Heq. cbn [fst snd] in Heq. injection Heq as <-.
    read_fields. do 2 f_equal. unfold nanmean, nansum, fives. simpl. f_equal. lra. }
  split; [exact Hfield |].
  destruct (Hmean Hfield) as (Hstd & Hskew & Hkurt).
  split; [apply Hstd; unfold count, fives; simpl; lia |].
  split; assumption.
Defined.

(** C1 as stated fails on a column that holds the single value 5: its
    std is NaN and not 0.0. *)
Lemma single_value_std_is_nan :
  ~ degenerate_reported_as_nan [("a"%string, lone_five)] "a"%string.
Proof.
  intros (stats & row & Hs & Hin & Hstd & _).
  rewrite statistics_ok in Hs by discriminate.
  injection Hs as <-.
  cbn [rows map] in Hin. destruct Hin as [Heq | []].
  unfold stats_row in Heq. cbn [fst snd] in Heq. injection Heq as <-.
  read_fields_in Hstd.
  rewrite short_nanstd in Hstd by (unfold count, lone_five; simpl; lia).
  discriminate.
Qed.

(** ** C2: the worked example *)

Lemma Rsum_masked_valid (f : R -> R) (col : list cell) :
  Rsum (masked f col) = Rsum (map f (valid col)).
Proof.
  unfold masked. induction col as [| [x |] rest IH]; simpl.
  - reflexivity.
  - rewrite IH. reflexivity.
  - rewrite IH. lra.
Qed.

(** The std of the table is the sample standard deviation. *)
Lemma nanstd_sample_std (col : list cell) : nanstd col = sample_std (valid col).
Proof.
  unfold nanstd, nanvar, sample_std, sample_mean.
  rewrite <- count_valid, nansum_valid, Rsum_masked_valid.
  destruct (count col <=? 1)%nat eqn:Hle.
  - apply Nat.leb_le in Hle.
    destruct (count col <? 2)%nat eqn:Hlt; [reflexivity |].
    apply Nat.ltb_ge in Hlt. lia.
  - apply Nat.leb_gt in Hle.
    destruct (count col <? 2)%nat eqn:Hlt; [apply Nat.ltb_lt in Hlt; lia |].
    do 3 f_equal. apply Rsum_map_ext. intros x _. ring.
Qed.

(** The skewness of a column with vanishing third moment (and a second
    moment that does not vanish) is 0.0. *)
Lemma nanskew_m3_zero (col : list cell) :
  (3 <= count col)%nat -> m2 col <> 0 -> m3 col = 0 -> nanskew col = Some 0.
Proof.
  intros Hn H2 H3. unfold nanskew.
  destruct (count col <? 3)%nat eqn:Hlt; [apply Nat.ltb_lt in Hlt; lia |].
  destruct (Req_dec_T (m2 col) 0); [contradiction |].
  f_equal. rewrite H3. unfold Rdiv. ring.
Qed.

Lemma example_mean_a : nanmean [Some 1; Some 2; Some 3] = Some 2.
Proof. unfold nanmean, nansum. simpl. f_equal. lra. Qed.

Lemma example_mean_b : nanmean [Some 2; Some 4; Some 6] = Some 4.
Proof. unfold nanmean, nansum. simpl. f_equal. lra. Qed.

Lemma example_std_a : nanstd [Some 1; Some 2; Some 3] = Some 1.
Proof.
  unfold nanstd, nanvar, nansum. simpl. f_equal.
  match goal with |- sqrt ?e = _ => replace e with 1 by lra end.
  apply sqrt_1.
Qed.

Lemma example_std_b : nanstd [Some 2; Some 4; Some 6] = Some 2.
Proof.
  unfold nanstd, nanvar, nansum. simpl. f_equal.
  match goal with |- sqrt ?e = _ => replace e with (2 * 2) by lra end.
  apply sqrt_square. lra.
Qed.

Lemma example_skew_a : nanskew [Some 1; Some 2; Some 3] = Some 0.
Proof.
  apply nanskew_m3_zero.
  - unfold count. simpl. lia.
  - unfold m2, deviations, nansum. simpl. lra.
  - unfold m3, deviations, nansum. simpl. field.
Qed.

(** C2.  On the table with columns a = 1, 2, 3 and b = 2, 4, 6 the two
    columns are the default selection, the statistics are computed, and
    the table has mean(a) = 2.0, std(a) = 1.0, mean(b) = 4.0,
    std(b) = 2.0 and skewness(a) = 0.0; on every column, std is the sample
    standard deviation with denominator n - 1. *)
Theorem example_statistics :
  let numeric_cols := select_dtypes_number example_table in
  let selected_cols := multiselect numeric_cols (firstn 2 numeric_cols) None in
  exists stats row_a row_b,
    (frame <- getitems example_table selected_cols ;; statistics frame) = Ok stats /\
    rows stats = [("a"%string, row_a); ("b"%string, row_b)] /\
    field stats "mean" row_a = Some (Some 2) /\
    field stats "std" row_a = Some (Some 1) /\
    field stats "mean" row_b = Some (Some 4) /\
    field stats "std" row_b = Some (Some 2) /\
    field stats "skewness" row_a = Some (Some 0) /\
    (forall col, nanstd col = sample_std (valid col)).
Proof.
  cbv zeta.
  exists (mkStats stats_columns (map stats_row example_frame)).
  exists (snd (stats_row ("a"%string, [Some 1; Some 2; Some 3]))).
  exists (snd (stats_row ("b"%string, [Some 2; Some 4; Some 6]))).
  split.
  { change (getitems example_table
              (multiselect (select_dtypes_number example_table)
                           (firstn 2 (select_dtypes_number example_table)) None))
      with (Ok example_frame).
    cbn [bind]. apply statistics_ok. discriminate. }
  split; [reflexivity |].
  read_fields.
  rewrite example_mean_a, example_std_a, example_mean_b, example_std_b, example_skew_a.
  repeat split. exact nanstd_sample_std.
Qed.

(** *** The moments over the non-missing values *)

Lemma mean_valid (col : list cell) :
  nansum col / INR (count col) = sample_mean (valid col).
Proof. unfold sample_mean. rewrite nansum_valid, count_valid. reflexivity. Qed.

Lemma m2_valid (col : list cell) :
  m2 col = Rsum (map (fun x => (x - sample_mean (valid col)) ^ 2) (valid col)).
Proof.
  unfold m2, deviations. rewrite mean_valid.
  rewrite (Rsum_masked (fun a => a ^ 2)) by ring. reflexivity.
Qed.

Lemma m3_valid (col : list cell) :
  m3 col = Rsum (map (fun x => (x - sample_mean (valid col)) ^ 3) (valid col)).
Proof.
  unfold m3, deviations. rewrite mean_valid.
  rewrite (Rsum_masked (fun a => a ^ 2 * a)) by ring.
  apply Rsum_map_ext. intros x _. ring.
Qed.

Lemma m4_valid (col : list cell) :
  m4 col = Rsum (map (fun x => (x - sample_mean (valid col)) ^ 4) (valid col)).
Proof.
  unfold m4, deviations. rewrite mean_valid.
  rewrite (Rsum_masked (fun a => (a ^ 2) ^ 2)) by ring.
  apply Rsum_map_ext. intros x _. ring.
Qed.

(** ** C4 and C10: the skewness chart *)

Lemma insert_by_value_perm (e : string * R) (l : list (string * R)) :
  Permutation (insert_by_value e l) (e :: l).
Proof.
  induction l as [| y rest IH]; simpl.
  - apply Permutation_refl.
  - destruct (num_leb e y).
    + apply Permutation_refl.
    + apply perm_trans with (y :: e :: rest).
      * apply perm_skip. exact IH.
      * apply perm_swap.
Qed.

Lemma isort_perm (l : list (string * R)) : Permutation (isort l) l.
Proof.
  induction l as [| e rest IH]; simpl.
  - apply perm_nil.
  - apply perm_trans with (e :: isort rest).
    + apply insert_by_value_perm.
    + apply perm_skip. exact IH.
Qed.

Lemma insert_by_value_sorted (e : string * R) (l : list (string * R)) :
  StronglySorted value_le l -> StronglySorted value_le (insert_by_value e l).
Proof.
  induction l as [| y rest IH]; simpl; intros Hs.
  - constructor; constructor.
  - inversion Hs as [| ? ? Hrest Hall]; subst.
    unfold num_leb. destruct (Rle_dec (snd e) (snd y)) as [Hle | Hnle].
    + constructor; [exact Hs |].
      constructor; [exact Hle |].
      eapply Forall_impl; [| exact Hall].
      intros z Hz. unfold value_le in *. lra.
    + constructor; [apply IH; exact Hrest |].
      apply (Permutation_Forall (Permutation_sym (insert_by_value_perm e rest))).
      constructor; [unfold value_le; lra | exact Hall].
Qed.

Lemma isort_sorted (l : list (string * R)) : StronglySorted value_le (isort l).
Proof.
  induction l as [| e rest IH]; simpl.
  - constructor.
  - apply insert_by_value_sorted. exact IH.
Qed.

Lemma sort_values_unfold (s : Series) :
  sort_values s = map some_value (isort (non_nans s)) ++ nans s.
Proof. reflexivity. Qed.

Lemma non_nans_nans_perm (s : Series) :
  Permutation (map some_value (non_nans s) ++ nans s) s.
Proof.
  induction s as [| [l [v |]] rest IH]; simpl.
  - apply perm_nil.
  - apply perm_skip. exact IH.
  - apply Permutation_sym, Permutation_cons_app, Permutation_sym. exact IH.
Qed.

(** Sorting moves the entries of a Series and changes none. *)
Lemma sort_values_perm (s : Series) : Permutation (sort_values s) s.
Proof.
  rewrite sort_values_unfold.
  apply perm_trans with (map some_value (non_nans s) ++ nans s).
  - apply Permutation_app_tail, Permutation_map, isort_perm.
  - apply non_nans_nans_perm.
Qed.

Lemma nans_all_nan (s : Series) : Forall (fun c => c = NaN) (map snd (nans s)).
Proof.
  induction s as [| [l [v |]] rest IH]; simpl; auto.
Qed.

Lemma sorted_numbers (l : list (string * R)) :
  StronglySorted value_le l ->
  StronglySorted cell_le (map snd (map some_value l)).
Proof.
  induction 1 as [| e rest Hs IH Hall]; simpl.
  - constructor.
  - constructor; [exact IH |].
    rewrite map_map. apply Forall_map.
    eapply Forall_impl; [| exact Hall]. intros z Hz. exact Hz.
Qed.

Lemma sorted_app_nans (xs ys : list cell) :
  StronglySorted cell_le xs -> Forall (fun c => c = NaN) ys ->
  StronglySorted cell_le (xs ++ ys).
Proof.
  intros Hxs Hys. induction Hxs as [| x rest Hs IH Hall]; simpl.
  - induction Hys as [| y ys' Hy Hys' IHy]; constructor.
    + exact IHy.
    + subst y. eapply Forall_impl; [| exact Hys'].
      intros c ->. exact I.
  - constructor; [exact IH |].
    apply Forall_app. split; [exact Hall |].
    eapply Forall_impl; [| exact Hys]. intros c ->. destruct x; exact I.
Qed.

(** The values of a sorted Series ascend, NaN last. *)
Lemma sort_values_sorted (s : Series) :
  StronglySorted cell_le (map snd (sort_values s)).
Proof.
  rewrite sort_values_unfold, map_app.
  apply sorted_app_nans.
  - apply sorted_numbers, isort_sorted.
  - apply nans_all_nan.
Qed.

(** *** The selection always resolves to columns of the table *)

Lemma getitem_numeric (df : Table) (c : string) :
  In c (select_dtypes_number df) -> exists col, getitem df (Some c) = Ok col.
Proof.
  unfold getitem. induction df as [| [name d] rest IH]; simpl; intros Hin.
  - contradiction.
  - destruct (String.eqb name c) eqn:E; [eexists; reflexivity |].
    apply IH. destruct d; [| exact Hin | exact Hin].
    destruct Hin as [-> | Hin]; [| exact Hin].
    rewrite String.eqb_refl in E. discriminate.
Qed.

Lemma getitems_ok (df : Table) (cols : list string) :
  incl cols (select_dtypes_number df) ->
  exists frame, getitems df cols = Ok frame /\ map fst frame = cols.
Proof.
  induction cols as [| c rest IH]; intros Hincl.
  - exists []. split; reflexivity.
  - destruct (getitem_numeric df c) as [col Hcol]; [apply Hincl; left; reflexivity |].
    destruct IH as [sub [Hsub Hfst]]; [intros x Hx; apply Hincl; right; exact Hx |].
    exists ((c, as_float col) :: sub).
    change (getitems df (c :: rest))
      with (col <- getitem df (Some c) ;; sub <- getitems df rest ;;
            Ok ((c, as_float col) :: sub)).
    rewrite Hcol, Hsub. simpl. rewrite Hfst. split; reflexivity.
Qed.

Lemma In_firstn (A : Type) (n : nat) (l : list A) (x : A) :
  In x (firstn n l) -> In x l.
Proof.
  revert l. induction n as [| n IH]; intros [| a l]; simpl; try tauto.
  intros [H | H]; [left; exact H | right; apply IH; exact H].
Qed.

Lemma multiselect_incl (options : list string) (picked : option (list string)) :
  incl (multiselect options (firstn 2 options) picked) options.
Proof.
  destruct picked as [l |]; unfold multiselect; intros c Hc.
  - apply nodup_In in Hc. apply filter_In in Hc. destruct Hc as [_ Hc].
    apply existsb_exists in Hc. destruct Hc as [o [Ho Heq]].
    apply String.eqb_eq in Heq. subst. exact Ho.
  - eapply In_firstn. exact Hc.
Qed.

Lemma selected_frame (df : Table) (s : Session) :
  exists frame,
    getitems df (selected_columns df s) = Ok frame /\
    map fst frame = selected_columns df s.
Proof. apply getitems_ok, multiselect_incl. Qed.

(** C4.  Whatever the user selected, the skewness chart is drawn, and the
    values of its bars, in the order of the chart, ascend: each is at most
    the next, NaN bars last.  The bars are the per-column skewness values,
    reordered. *)
Theorem skewness_chart_sorted (df : Table) (s : Session) :
  plot_type s = SkewnessAnalysis ->
  exists frame skew_values,
    getitems df (selected_columns df s) = Ok frame /\
    render df (selected_columns df s) s = ([], Ok (SkewBar skew_values)) /\
    Permutation skew_values (skew frame) /\
    StronglySorted cell_le (map snd skew_values).
Proof.
  intros Hplot.
  destruct (selected_frame df s) as [frame [Hframe _]].
  exists frame, (sort_values (skew frame)).
  split; [exact Hframe |].
  split; [unfold render; rewrite Hplot, Hframe; reflexivity |].
  split; [apply sort_values_perm | apply sort_values_sorted].
Qed.

Lemma skewness_chart_sorted_witness :
  exists frame skew_values,
    getitems example_table (selected_columns example_table (skewness_session None))
    = Ok frame /\
    render example_table (selected_columns example_table (skewness_session None))
           (skewness_session None)
    = ([], Ok (SkewBar skew_values)) /\
    Permutation skew_values (skew frame) /\
    StronglySorted cell_le (map snd skew_values).
Proof.
  apply (@skewness_chart_sorted example_table (skewness_session None)).
  reflexivity.
Defined.

(** C10.  In a run that draws the skewness chart, the bars of the chart
    are the entries of the skewness column of the statistics table, label
    by label with the same value, in another order. *)
Theorem chart_skewness_is_table_skewness (df : Table) (s : Session) :
  plot_type s = SkewnessAnalysis ->
  selected_columns df s <> [] ->
  exists frame skew_values stats,
    getitems df (selected_columns df s) = Ok frame /\
    render df (selected_columns df s) s = ([], Ok (SkewBar skew_values)) /\
    statistics frame = Ok stats /\
    skewness_column stats = skew frame /\
    Permutation skew_values (skewness_column stats).
Proof.
  intros Hplot Hne.
  destruct (selected_frame df s) as [frame [Hframe Hfst]].
  assert (Hfne : frame <> []).
  { intros ->. apply Hne. rewrite <- Hfst. reflexivity. }
  assert (Hcol : skewness_column (mkStats stats_columns (map stats_row frame))
                 = skew frame).
  { unfold skewness_column, skew. cbn [rows columns]. rewrite map_map.
    apply map_ext. intros [name col]. reflexivity. }
  exists frame, (sort_values (skew frame)), (mkStats stats_columns (map stats_row frame)).
  split; [exact Hframe |].
  split; [unfold render; rewrite Hplot, Hframe; reflexivity |].
  split; [apply statistics_ok; exact Hfne |].
  split; [exact Hcol |].
  rewrite Hcol. apply sort_values_perm.
Qed.

Lemma chart_skewness_is_table_skewness_witness :
  exists frame skew_values stats,
    getitems example_table (selected_columns example_table (skewness_session None))
    = Ok frame /\
    render example_table (selected_columns example_table (skewness_session None))
           (skewness_session None)
    = ([], Ok (SkewBar skew_values)) /\
    statistics frame = Ok stats /\
    skewness_column stats = skew frame /\
    Permutation skew_values (skewness_column stats).
Proof.
  apply (@chart_skewness_is_table_skewness example_table (skewness_session None)).
  - reflexivity.
  - discriminate.
Defined.

(** ** C9: the scatter chart *)

Lemma selectbox_In (options : list string) (choice : nat) (x : string) :
  selectbox options choice = Some x -> In x options.
Proof.
  destruct options as [| first rest]; unfold selectbox; [discriminate |].
  intros H. injection H as H.
  destruct (nth_in_or_default choice (first :: rest) first) as [Hin | Heq].
  - rewrite <- H. exact Hin.
  - rewrite <- H. left. symmetry. exact Heq.
Qed.

Lemma two_distinct_members (l : list string) (x y : string) :
  In x l -> In y l -> x <> y -> (2 <= length l)%nat.
Proof.
  destruct l as [| a [| b rest]]; simpl; intros Hx Hy Hne.
  - contradiction.
  - destruct Hx as [<- | []]. destruct Hy as [<- | []]. congruence.
  - lia.
Qed.

(** C9 (amended).  Whenever the scatter branch produces a chart, its two
    axes are two different columns of the selection, so at least two
    columns are selected. *)
Theorem scatter_axes_distinct
        (df : Table) (selected_cols : list string) (s : Session) (fig : Chart) :
  plot_type s = ScatterPlot ->
  snd (render df selected_cols s) = Ok fig ->
  exists x_axis y_axis xs ys color,
    fig = Scatter x_axis y_axis xs ys color /\
    x_axis <> y_axis /\
    In x_axis selected_cols /\ In y_axis selected_cols /\
    (2 <= length selected_cols)%nat.
Proof.
  intros Hplot Hfig. unfold render in Hfig. rewrite Hplot in Hfig.
  destruct (selectbox selected_cols (x_choice s)) as [x |] eqn:Hx;
    [| simpl in Hfig; discriminate].
  destruct (selectbox (filter (fun c => negb (is_label (Some x) c)) selected_cols)
                      (y_choice s)) as [y |] eqn:Hy.
  - apply selectbox_In in Hx. apply selectbox_In in Hy.
    apply filter_In in Hy. destruct Hy as [Hyin Hyne].
    assert (Hne : x <> y).
    { intros ->. simpl in Hyne. rewrite String.eqb_refl in Hyne. discriminate. }
    destruct (getitem df (Some x)) as [xs | e] eqn:Hgx; [| simpl in Hfig; discriminate].
    destruct (getitem df (Some y)) as [ys | e] eqn:Hgy; [| simpl in Hfig; discriminate].
    simpl in Hfig. injection Hfig as <-.
    exists x, y, (as_float xs), (as_float ys), (Some (picked_color s)).
    repeat split; try assumption.
    apply (two_distinct_members selected_cols Hx Hyin Hne).
  - destruct (getitem df (Some x)) as [xs | e]; simpl in Hfig; discriminate.
Qed.

Lemma scatter_axes_distinct_witness :
  exists x_axis y_axis xs ys color,
    Scatter "a" "b" [Some 1; Some 2; Some 3] [Some 2; Some 4; Some 6] (Some "#1f77b4"%string)
    = Scatter x_axis y_axis xs ys color /\
    x_axis <> y_axis /\
    In x_axis ["a"; "b"]%string /\ In y_axis ["a"; "b"]%string /\
    (2 <= length ["a"; "b"]%string)%nat.
Proof.
  apply (@scatter_axes_distinct example_table ["a"; "b"]%string (scatter_session None)).
  - reflexivity.
  - reflexivity.
Defined.

(** With a single selected column there is no choice left for the y axis:
    the select box returns [None] and [df[None]] raises. *)
Lemma scatter_single_column_raises :
  render example_table ["a"]%string (scatter_session (Some ["a"]%string))
  = ([], Raise (KeyError None)).
Proof. reflexivity. Qed.

(** C9 as stated fails: with the three columns a, b, c selected the
    scatter chart of a against b is produced. *)
Lemma scatter_with_three_columns :
  ~ scatter_needs_exactly_two three_table
      (scatter_session (Some ["a"; "b"; "c"]%string)).
Proof.
  intros H.
  specialize (H (Scatter "a" "b" [Some 1; Some 2] [Some 3; Some 4]
                         (Some "#1f77b4"%string)) eq_refl eq_refl).
  discriminate H.
Qed.

(** ** C7 and C8: failures *)

Section Failures.

Variable read_csv : string -> result Table.
Variables format_2f float_repr : R -> string.
Variable linesep : string.

Local Abbreviation run := (main read_csv format_2f float_repr linesep).

Lemma run_load_failure (s : Session) (file : string) (e : exn) :
  uploaded_file s = Some file -> read_csv file = Raise e ->
  run s = ([title; StError ("Error loading file: " ++ str_exn e); invalid_or_empty],
           Ok tt).
Proof.
  intros Hup Hread. unfold run, main, load_data. rewrite Hup, Hread. reflexivity.
Qed.

Lemma run_empty (s : Session) (file : string) (df : Table) :
  uploaded_file s = Some file -> read_csv file = Ok df -> empty df = true ->
  run s = ([title; invalid_or_empty], Ok tt).
Proof.
  intros Hup Hread Hempty. unfold run, main, load_data. rewrite Hup, Hread.
  unfold bindA. cbn [ret emit fst snd none_or_empty app]. rewrite Hempty.
  reflexivity.
Qed.

Lemma run_page (s : Session) (file : string) (df : Table) :
  uploaded_file s = Some file -> read_csv file = Ok df -> empty df = false ->
  run s = (title :: fst (page format_2f float_repr linesep df s),
           snd (page format_2f float_repr linesep df s)).
Proof.
  intros Hup Hread Hempty. unfold run, main, load_data. rewrite Hup, Hread.
  unfold bindA at 1 2. cbn [ret emit fst snd none_or_empty app]. rewrite Hempty.
  unfold bindA. cbn [emit fst snd app].
  destruct (snd (page format_2f float_repr linesep df s)); reflexivity.
Qed.

Lemma page_no_numeric (s : Session) (df : Table) :
  select_dtypes_number df = [] ->
  page format_2f float_repr linesep df s
  = ([StSidebarHeader "Analysis Controls";
      StError "No numerical columns found in the dataset"], Ok tt).
Proof. intros Hnum. unfold page. rewrite Hnum. reflexivity. Qed.

Lemma page_no_selection (s : Session) (df : Table) :
  select_dtypes_number df <> [] -> selected_columns df s = [] ->
  page format_2f float_repr linesep df s
  = ([StSidebarHeader "Analysis Controls";
      StWarning "Please select at least one numerical column"], Ok tt).
Proof.
  intros Hnum Hsel. unfold page. fold (selected_columns df s).
  destruct (select_dtypes_number df) eqn:E; [contradiction |].
  rewrite Hsel. reflexivity.
Qed.

(** C7.  When one of the four failures is detected, the run ends
    normally (no exception leaves [main]); what it wrote ends with a
    message to the user, and holds no element of the overview, chart or
    statistics stage. *)
Theorem failures_halt_with_message (s : Session) (file : string) (kind : Failure) :
  uploaded_file s = Some file ->
  failure read_csv file s = Some kind ->
  halted (run s).
Proof.
  intros Hup Hfail. unfold failure in Hfail. unfold halted.
  destruct (read_csv file) as [df | e] eqn:Hread.
  - destruct (empty df) eqn:Hempty.
    + rewrite (run_empty s Hup Hread Hempty).
      split; [reflexivity |]. split; [| reflexivity].
      exists [title], invalid_or_empty. split; reflexivity.
    + rewrite (run_page s Hup Hread Hempty).
      destruct (select_dtypes_number df) as [| c cs] eqn:Hnum.
      * rewrite (page_no_numeric s df Hnum).
        split; [reflexivity |]. split; [| reflexivity].
        exists [title; StSidebarHeader "Analysis Controls"],
               (StError "No numerical columns found in the dataset").
        split; reflexivity.
      * destruct (selected_columns df s) eqn:Hsel; [| discriminate].
        rewrite (page_no_selection s df) by (try rewrite Hnum; congruence).
        split; [reflexivity |]. split; [| reflexivity].
        exists [title; StSidebarHeader "Analysis Controls"],
               (StWarning "Please select at least one numerical column").
        split; reflexivity.
  - rewrite (run_load_failure s Hup Hread).
    split; [reflexivity |]. split; [| reflexivity].
    exists [title; StError ("Error loading file: " ++ str_exn e)], invalid_or_empty.
    split; reflexivity.
Qed.

(** [main] is the title, the call of [load_data] and [after_load] on
    what the call returned. *)
Lemma main_after_load (s : Session) (file : string) :
  uploaded_file s = Some file ->
  run s
  = (emit title ;;;
     df <~ load_data read_csv file ;;
     after_load format_2f float_repr linesep df s).
Proof. intros Hup. unfold run, main, after_load. rewrite Hup. reflexivity. Qed.

(** C8 (amended).  A file that parses into a table without rows: the
    loader returns the table and writes nothing, and the caller stops with
    the error
    "Invalid or empty file. Please upload a valid CSV.".  For a file that
    does not parse the loader writes its own error and returns [None],
    and the caller stops with the very same error: the two runs differ by
    the loader's line only. *)
Theorem empty_dataset_shares_message (s : Session) (file : string) (df : Table) :
  uploaded_file s = Some file ->
  read_csv file = Ok df ->
  nrows df = 0%nat ->
  run s
  = (emit title ;;;
     loaded <~ load_data read_csv file ;;
     after_load format_2f float_repr linesep loaded s) /\
  load_data read_csv file = ([], Ok (Some df)) /\
  after_load format_2f float_repr linesep (Some df) s = ([invalid_or_empty], Ok tt) /\
  run s = ([title; invalid_or_empty], Ok tt) /\
  (forall s' file' e,
      uploaded_file s' = Some file' -> read_csv file' = Raise e ->
      load_data read_csv file'
      = ([StError ("Error loading file: " ++ str_exn e)], Ok None) /\
      after_load format_2f float_repr linesep None s' = ([invalid_or_empty], Ok tt) /\
      run s'
      = ([title; StError ("Error loading file: " ++ str_exn e); invalid_or_empty], Ok tt)).
Proof.
  intros Hup Hread Hrows.
  assert (Hempty : empty df = true).
  { unfold empty. rewrite Hrows. apply orb_true_r. }
  split; [apply (main_after_load s Hup) |].
  split; [unfold load_data; rewrite Hread; reflexivity |].
  split; [unfold after_load; cbn [none_or_empty]; rewrite Hempty; reflexivity |].
  split; [apply (run_empty s Hup Hread Hempty) |].
  intros s' file' e Hup' Hread'.
  split; [unfold load_data; rewrite Hread'; reflexivity |].
  split; [reflexivity |].
  apply (run_load_failure s' Hup' Hread').
Qed.

End Failures.

Lemma failures_halt_with_message_witness :
  halted (main toy_read_csv toy_format toy_format nl (upload empty_file None)) /\
  halted (main toy_read_csv toy_format toy_format nl (upload header_only_file None)) /\
  halted (main toy_read_csv toy_format toy_format nl (upload text_file None)) /\
  halted (main toy_read_csv toy_format toy_format nl (upload numbers_file (Some []))).
Proof.
  repeat split.
  - apply (@failures_halt_with_message toy_read_csv toy_format toy_format nl
             (upload empty_file None) empty_file LoadFailure); reflexivity.
  - apply (@failures_halt_with_message toy_read_csv toy_format toy_format nl
             (upload header_only_file None) header_only_file EmptyDataset); reflexivity.
  - apply (@failures_halt_with_message toy_read_csv toy_format toy_format nl
             (upload text_file None) text_file NoNumericColumns); reflexivity.
  - apply (@failures_halt_with_message toy_read_csv toy_format toy_format nl
             (upload numbers_file (Some [])) numbers_file NoColumnsSelected); reflexivity.
Defined.

Lemma empty_dataset_shares_message_witness :
  main toy_read_csv toy_format toy_format nl (upload header_only_file None)
  = ([title; invalid_or_empty], Ok tt) /\
  main toy_read_csv toy_format toy_format nl (upload empty_file None)
  = ([title; StError "Error loading file: No columns to parse from file";
      invalid_or_empty], Ok tt).
Proof.
  destruct (@empty_dataset_shares_message toy_read_csv toy_format toy_format nl
              (upload header_only_file None) header_only_file
              [("a"%string, Text []); ("b"%string, Text [])]
              eq_refl eq_refl eq_refl) as (_ & _ & _ & Hrun & Hother).
  split; [exact Hrun |].
  destruct (Hother (upload empty_file None) empty_file
                   (ParseError "No columns to parse from file") eq_refl eq_refl)
    as (_ & _ & Hrun').
  exact Hrun'.
Defined.

(** C8 as stated fails: the caller does not tell the two failures apart;
    for a table without rows and for [None] it writes the same error and
    nothing else. *)
Lemma empty_dataset_reported_as_load_failure :
  ~ empty_reported_apart toy_format toy_format nl.
Proof.
  intros H.
  apply (H [("a"%string, Text []); ("b"%string, Text [])] (upload header_only_file None)).
  - reflexivity.
  - reflexivity.
Qed.

(** ** C6: the exported file *)

(** *** Reading comma-separated text *)












(** *** Numbers written in full *)




(** *** The download *)

Section Exporter.

Variables format_2f float_repr : R -> string.
Variable float_of_string : string -> option R.
Variable linesep : string.


End Exporter.




(** * Further properties of the program *)

(** ** Runs of [main] *)

Lemma tab1_run (df : Table) (numeric_cols selected_cols : list string) :
  tab1 df numeric_cols selected_cols = (overview df numeric_cols selected_cols, Ok tt).
Proof. reflexivity. Qed.

Lemma render_writes_nothing (df : Table) (selected_cols : list string) (s : Session) :
  fst (render df selected_cols s) = [].
Proof.
  unfold render. destruct (plot_type s); unfold bindA, lift, ret; cbn [fst snd].
  - destruct (getitem df (selectbox selected_cols (x_choice s))); cbn [fst snd]; [| reflexivity].
    destruct (getitem df _); reflexivity.
  - destruct (getitems df selected_cols); reflexivity.
  - destruct (getitem df (selectbox selected_cols (column_choice s))); cbn [fst snd]; [| reflexivity].
    destruct (hist (as_float a) 20); reflexivity.
  - destruct (getitems df selected_cols); reflexivity.
Qed.

Lemma tab2_run (df : Table) (selected_cols : list string) (s : Session) :
  tab2 df selected_cols s
  = (chart_tab (snd (render df selected_cols s)),
     match snd (render df selected_cols s) with
     | Ok _ => Ok tt
     | Raise e => Raise e
     end).
Proof.
  unfold tab2, chart_tab, bindA. cbn [emit fst snd app].
  rewrite render_writes_nothing.
  destruct (snd (render df selected_cols s)); reflexivity.
Qed.

Lemma tab3_run (format_2f float_repr : R -> string) (linesep : string)
      (df : Table) (selected_cols : list string) (frame : NumFrame) :
  getitems df selected_cols = Ok frame -> frame <> [] ->
  tab3 format_2f float_repr linesep df selected_cols
  = (statistics_tab format_2f float_repr linesep frame, Ok tt).
Proof.
  intros Hframe Hne. unfold tab3. rewrite Hframe. unfold bindA, lift, emit.
  cbn [fst snd app]. rewrite (statistics_ok Hne). cbn [fst snd app columns].
  unfold style_format, statistics_tab. cbn [rows]. rewrite map_map. reflexivity.
Qed.

Lemma selected_nonempty_numeric (df : Table) (s : Session) :
  selected_columns df s <> [] -> select_dtypes_number df <> [].
Proof.
  intros Hsel Hnum. apply Hsel.
  pose proof (@multiselect_incl (select_dtypes_number df) (picked_columns s)) as Hincl.
  fold (selected_columns df s) in Hincl. rewrite Hnum in Hincl.
  destruct (selected_columns df s) as [| c rest]; [reflexivity |].
  destruct (Hincl c (or_introl eq_refl)).
Qed.

Section Runs.

Variable read_csv : string -> result Table.
Variables format_2f float_repr : R -> string.
Variable linesep : string.

Local Abbreviation run := (main read_csv format_2f float_repr linesep).

(** What the page holds once columns are selected: the three tabs in
    order; the statistics tab only when the renderer returned. *)
Lemma page_selected (df : Table) (s : Session) (frame : NumFrame) :
  selected_columns df s <> [] ->
  getitems df (selected_columns df s) = Ok frame ->
  page format_2f float_repr linesep df s
  = (StSidebarHeader "Analysis Controls"
     :: overview df (select_dtypes_number df) (selected_columns df s)
     ++ chart_tab (snd (render df (selected_columns df s) s))
     ++ match snd (render df (selected_columns df s) s) with
        | Ok _ => statistics_tab format_2f float_repr linesep frame
        | Raise _ => []
        end,
     match snd (render df (selected_columns df s) s) with
     | Ok _ => Ok tt
     | Raise e => Raise e
     end).
Proof.
  intros Hsel Hframe.
  assert (Hfne : frame <> []).
  { destruct (selected_frame df s) as [frame' [Hframe' Hfst]].
    rewrite Hframe in Hframe'. injection Hframe' as <-.
    intros ->. apply Hsel. rewrite <- Hfst. reflexivity. }
  pose proof (@selected_nonempty_numeric df s Hsel) as Hnum.
  unfold page. fold (selected_columns df s).
  destruct (select_dtypes_number df) as [| n ns] eqn:En; [contradiction |].
  destruct (selected_columns df s) as [| c cs] eqn:Es; [contradiction |].
  rewrite tab1_run, tab2_run, (@tab3_run format_2f float_repr linesep df _ frame Hframe Hfne).
  unfold bindA. cbn [emit fst snd].
  destruct (snd (render df (c :: cs) s)); cbn [fst snd app]; reflexivity.
Qed.

Lemma run_no_upload (s : Session) :
  uploaded_file s = None ->
  run s = ([title; StInfo "Please upload a CSV file to begin analysis"], Ok tt).
Proof. intros Hup. unfold main. rewrite Hup. reflexivity. Qed.

End Runs.

Section RunProperties.

Variable read_csv : string -> result Table.
Variables format_2f float_repr : R -> string.
Variable linesep : string.

Local Abbreviation run := (main read_csv format_2f float_repr linesep).

(** X1.  A run that gets past the four guards and whose renderer returns
    a figure writes, in this order, the title, the sidebar header, the
    overview, the chart (shown, then closed) and the statistics table
    with its download, and returns. *)
Theorem run_complete (s : Session) (file : string) (df : Table) (fig : Chart) :
  uploaded_file s = Some file -> read_csv file = Ok df -> empty df = false ->
  selected_columns df s <> [] ->
  snd (render df (selected_columns df s) s) = Ok fig ->
  exists frame,
    getitems df (selected_columns df s) = Ok frame /\
    map fst frame = selected_columns df s /\
    run s
    = (title :: StSidebarHeader "Analysis Controls"
       :: overview df (select_dtypes_number df) (selected_columns df s)
       ++ [StHeader "Data Visualizations"; StPyplot fig; PltClose]
       ++ statistics_tab format_2f float_repr linesep frame,
       Ok tt).
Proof.
  intros Hup Hread Hempty Hsel Hfig.
  destruct (selected_frame df s) as [frame [Hframe Hfst]].
  exists frame. split; [exact Hframe |]. split; [exact Hfst |].
  rewrite (@run_page read_csv format_2f float_repr linesep s file df Hup Hread Hempty).
  rewrite (@page_selected format_2f float_repr linesep df s frame Hsel Hframe).
  rewrite Hfig. reflexivity.
Qed.

(** X2.  When the renderer raises, the exception leaves [main]: the page
    stops after the header of the chart tab, and neither a figure nor the
    statistics table nor the download is written. *)
Theorem chart_error_skips_statistics (s : Session) (file : string) (df : Table) (e : exn) :
  uploaded_file s = Some file -> read_csv file = Ok df -> empty df = false ->
  selected_columns df s <> [] ->
  snd (render df (selected_columns df s) s) = Raise e ->
  run s
  = (title :: StSidebarHeader "Analysis Controls"
     :: overview df (select_dtypes_number df) (selected_columns df s)
     ++ [StHeader "Data Visualizations"],
     Raise e) /\
  existsb is_result (fst (run s)) = false.
Proof.
  intros Hup Hread Hempty Hsel Hfig.
  destruct (selected_frame df s) as [frame [Hframe Hfst]].
  rewrite (@run_page read_csv format_2f float_repr linesep s file df Hup Hread Hempty).
  rewrite (@page_selected format_2f float_repr linesep df s frame Hsel Hframe).
  rewrite Hfig. split; reflexivity.
Qed.

(** X4.  A run never shows a message of failure (error or warning)
    together with content of the tabs: when it wrote a message, it wrote
    no element of the overview, chart or statistics tab. *)
Theorem message_excludes_content (s : Session) :
  existsb is_message (fst (run s)) = true ->
  existsb is_stage (fst (run s)) = false.
Proof.
  destruct (uploaded_file s) as [file |] eqn:Hup;
    [| rewrite (@run_no_upload read_csv format_2f float_repr linesep s Hup); reflexivity].
  destruct (read_csv file) as [df | e'] eqn:Hread;
    [| rewrite (@run_load_failure read_csv format_2f float_repr linesep s file e' Hup Hread);
       reflexivity].
  destruct (empty df) eqn:Hempty;
    [rewrite (@run_empty read_csv format_2f float_repr linesep s file df Hup Hread Hempty);
     reflexivity |].
  rewrite (@run_page read_csv format_2f float_repr linesep s file df Hup Hread Hempty).
  cbn [fst].
  destruct (select_dtypes_number df) as [| n ns] eqn:Hnum;
    [rewrite (@page_no_numeric format_2f float_repr linesep s df Hnum); reflexivity |].
  destruct (selected_columns df s) as [| c cs] eqn:Hsel.
  { rewrite (@page_no_selection format_2f float_repr linesep s df);
      [reflexivity | rewrite Hnum; discriminate | exact Hsel]. }
  destruct (selected_frame df s) as [frame [Hframe _]].
  assert (Hne : selected_columns df s <> []) by (rewrite Hsel; discriminate).
  rewrite (@page_selected format_2f float_repr linesep df s frame Hne Hframe).
  cbn [fst]. intros Hmsg. exfalso.
  unfold overview, chart_tab, statistics_tab in Hmsg.
  destruct (snd (render df (selected_columns df s) s)); cbn in Hmsg; discriminate.
Qed.

End RunProperties.

Lemma run_complete_witness :
  exists frame,
    getitems example_table (selected_columns example_table (upload numbers_file None))
    = Ok frame /\
    map fst frame = selected_columns example_table (upload numbers_file None) /\
    main toy_read_csv toy_format toy_format nl (upload numbers_file None)
    = (title :: StSidebarHeader "Analysis Controls"
       :: overview example_table (select_dtypes_number example_table)
                   (selected_columns example_table (upload numbers_file None))
       ++ [StHeader "Data Visualizations"; StPyplot (Box example_frame); PltClose]
       ++ statistics_tab toy_format toy_format nl frame,
       Ok tt).
Proof.
  apply (@run_complete toy_read_csv toy_format toy_format nl (upload numbers_file None)
           numbers_file example_table (Box example_frame));
    solve [reflexivity | discriminate].
Defined.

Lemma chart_error_skips_statistics_witness :
  main toy_read_csv toy_format toy_format nl one_column_scatter
  = (title :: StSidebarHeader "Analysis Controls"
     :: overview example_table (select_dtypes_number example_table)
                 (selected_columns example_table one_column_scatter)
     ++ [StHeader "Data Visualizations"],
     Raise (KeyError None)) /\
  existsb is_result (fst (main toy_read_csv toy_format toy_format nl one_column_scatter))
  = false.
Proof.
  apply (@chart_error_skips_statistics toy_read_csv toy_format toy_format nl
           one_column_scatter numbers_file example_table (KeyError None));
    solve [reflexivity | discriminate].
Defined.

Lemma message_excludes_content_witness :
  existsb is_stage (fst (main toy_read_csv toy_format toy_format nl (upload empty_file None)))
  = false.
Proof.
  apply (@message_excludes_content toy_read_csv toy_format toy_format nl
           (upload empty_file None)).
  reflexivity.
Defined.

(** ** Charts, selection and tables *)

Lemma selectbox_some (options : list string) (choice : nat) :
  options <> [] -> exists x, selectbox options choice = Some x.
Proof.
  destruct options as [| first rest]; [contradiction |].
  intros _. eexists. reflexivity.
Qed.

(** X5.  Whenever the selection holds two different numeric columns, the
    scatter branch draws a chart: its axes are two different columns of
    the selection and the points are the cells of these two columns. *)
Theorem scatter_drawn_for_distinct_columns
        (df : Table) (selected_cols : list string) (s : Session) (a b : string) :
  plot_type s = ScatterPlot ->
  incl selected_cols (select_dtypes_number df) ->
  In a selected_cols -> In b selected_cols -> a <> b ->
  exists x_axis y_axis xs ys,
    render df selected_cols s
    = ([], Ok (Scatter x_axis y_axis (as_float xs) (as_float ys) (Some (picked_color s)))) /\
    x_axis <> y_axis /\ In x_axis selected_cols /\ In y_axis selected_cols /\
    getitem df (Some x_axis) = Ok xs /\ getitem df (Some y_axis) = Ok ys.
Proof.
  intros Hplot Hincl Ha Hb Hab.
  assert (Hne : selected_cols <> []) by (intros ->; contradiction).
  destruct (@selectbox_some selected_cols (x_choice s) Hne) as [x Hx].
  pose proof (selectbox_In _ _ Hx) as Hxin.
  assert (Hrest : filter (fun c => negb (is_label (Some x) c)) selected_cols <> []).
  { assert (Hc : exists c, In c selected_cols /\ c <> x).
    { destruct (string_dec a x) as [-> | Hax]; [exists b | exists a]; split; auto. }
    destruct Hc as [c [Hcin Hcx]]. intros Hnil.
    assert (Hin : In c (filter (fun c => negb (is_label (Some x) c)) selected_cols)).
    { apply filter_In. split; [exact Hcin |]. simpl.
      apply negb_true_iff, String.eqb_neq. exact Hcx. }
    rewrite Hnil in Hin. contradiction. }
  destruct (@selectbox_some _ (y_choice s) Hrest) as [y Hy].
  pose proof (selectbox_In _ _ Hy) as Hyin. apply filter_In in Hyin.
  destruct Hyin as [Hyin Hyx].
  assert (Hxy : x <> y).
  { intros ->. simpl in Hyx. rewrite String.eqb_refl in Hyx. discriminate. }
  destruct (@getitem_numeric df x (Hincl x Hxin)) as [xs Hxs].
  destruct (@getitem_numeric df y (Hincl y Hyin)) as [ys Hys].
  exists x, y, xs, ys.
  split.
  { unfold render. rewrite Hplot, Hx, Hy, Hxs. unfold bindA, lift, ret.
    cbn [fst snd app]. rewrite Hys. reflexivity. }
  auto.
Qed.

(** X6.  When all selected columns are one and the same column - a
    selection of a single column above all - the scatter branch finds no
    choice for the y axis and raises [KeyError] on [df[None]]. *)
Theorem scatter_single_column_key_error
        (df : Table) (selected_cols : list string) (s : Session) :
  plot_type s = ScatterPlot ->
  incl selected_cols (select_dtypes_number df) ->
  selected_cols <> [] ->
  (forall a b, In a selected_cols -> In b selected_cols -> a = b) ->
  render df selected_cols s = ([], Raise (KeyError None)).
Proof.
  intros Hplot Hincl Hne Hsame.
  destruct (@selectbox_some selected_cols (x_choice s) Hne) as [x Hx].
  pose proof (selectbox_In _ _ Hx) as Hxin.
  assert (Hrest : filter (fun c => negb (is_label (Some x) c)) selected_cols = []).
  { destruct (filter (fun c => negb (is_label (Some x) c)) selected_cols)
      as [| c rest] eqn:E; [reflexivity |].
    assert (Hin : In c (filter (fun c => negb (is_label (Some x) c)) selected_cols))
      by (rewrite E; left; reflexivity).
    apply filter_In in Hin. destruct Hin as [Hcin Hcx].
    rewrite (Hsame c x Hcin Hxin) in Hcx. simpl in Hcx.
    rewrite String.eqb_refl in Hcx. discriminate. }
  destruct (@getitem_numeric df x (Hincl x Hxin)) as [xs Hxs].
  unfold render. rewrite Hplot, Hx, Hrest, Hxs. reflexivity.
Qed.

Lemma count_zero_no_range (col : list cell) :
  count col = 0%nat -> hist col 20 = Raise no_finite_range.
Proof.
  intros Hn. rewrite count_valid in Hn. unfold hist, nanmin.
  destruct (valid col); [reflexivity | discriminate].
Qed.

(** X7.  Asking for the distribution of a column that holds no value at
    all raises the [ValueError] of the histogram: no chart is drawn. *)
Theorem distribution_without_values_raises
        (df : Table) (selected_cols : list string) (s : Session)
        (c : string) (values : ColData) :
  plot_type s = DistributionPlot ->
  selectbox selected_cols (column_choice s) = Some c ->
  getitem df (Some c) = Ok values ->
  count (as_float values) = 0%nat ->
  render df selected_cols s = ([], Raise no_finite_range).
Proof.
  intros Hplot Hc Hvalues Hn. unfold render. rewrite Hplot, Hc, Hvalues.
  unfold bindA, lift. cbn [fst snd app].
  rewrite (@count_zero_no_range _ Hn). reflexivity.
Qed.

(** X8.  The columns [main] works on are always numeric columns of the
    table.  Until the user touches the widget they are the first two
    numeric columns; what the user picked is kept without repeats.  The
    selection of a table with a numeric column is empty only after the
    user picked a list without any numeric column in it. *)
Theorem selection_rules (df : Table) (s : Session) :
  incl (selected_columns df s) (select_dtypes_number df) /\
  (picked_columns s = None ->
   selected_columns df s = firstn 2 (select_dtypes_number df)) /\
  (picked_columns s <> None -> NoDup (selected_columns df s)) /\
  (selected_columns df s = [] -> select_dtypes_number df <> [] ->
   exists picked, picked_columns s = Some picked /\
                  forall c, In c picked -> ~ In c (select_dtypes_number df)).
Proof.
  split; [apply multiselect_incl |].
  unfold selected_columns, multiselect.
  destruct (picked_columns s) as [picked |].
  - split; [discriminate |]. split; [intros _; apply NoDup_nodup |].
    intros Hnil _. exists picked. split; [reflexivity |].
    intros c Hc Hnum.
    assert (Hin : In c (nodup string_dec
                          (filter (fun c => existsb (String.eqb c) (select_dtypes_number df))
                                  picked))).
    { apply nodup_In, filter_In. split; [exact Hc |].
      apply existsb_exists. exists c. split; [exact Hnum | apply String.eqb_refl]. }
    rewrite Hnil in Hin. contradiction.
  - split; [reflexivity |]. split; [congruence |].
    intros Hnil Hnum. exfalso.
    destruct (select_dtypes_number df); [contradiction | discriminate].
Qed.

(** X9.  The statistics table of a non-empty selection has the ten
    columns count, mean, std, min, 25%, 50%, 75%, max, skewness and
    kurtosis, one row per selected column in the order of the selection,
    and every row holds exactly one value per column. *)
Theorem statistics_table_shape (df : Table) (s : Session) :
  selected_columns df s <> [] ->
  exists frame stats,
    getitems df (selected_columns df s) = Ok frame /\
    statistics frame = Ok stats /\
    columns stats = stats_columns /\
    map fst (rows stats) = selected_columns df s /\
    Forall (fun r => length (snd r) = length (columns stats)) (rows stats).
Proof.
  intros Hsel. destruct (selected_frame df s) as [frame [Hframe Hfst]].
  assert (Hne : frame <> []).
  { intros ->. apply Hsel. rewrite <- Hfst. reflexivity. }
  exists frame, (mkStats stats_columns (map stats_row frame)).
  split; [exact Hframe |]. split; [apply statistics_ok; exact Hne |].
  split; [reflexivity |]. cbn [rows columns].
  split.
  - rewrite map_map. exact Hfst.
  - apply Forall_forall. intros r Hr. apply in_map_iff in Hr.
    destruct Hr as [nc [<- _]]. reflexivity.
Qed.

(** X10.  The box plot and the skewness chart are drawn for every
    selection and cover exactly the selected columns: the box plot has one
    box per selected column, in order; the skewness chart has one bar per
    selected column, each under the label of its column. *)
Theorem charts_cover_selection (df : Table) (s : Session) :
  exists frame,
    getitems df (selected_columns df s) = Ok frame /\
    map fst frame = selected_columns df s /\
    (plot_type s = BoxPlot ->
     render df (selected_columns df s) s = ([], Ok (Box frame))) /\
    (plot_type s = SkewnessAnalysis ->
     exists skew_values,
       render df (selected_columns df s) s = ([], Ok (SkewBar skew_values)) /\
       length skew_values = length (selected_columns df s) /\
       Permutation (map fst skew_values) (selected_columns df s)).
Proof.
  destruct (selected_frame df s) as [frame [Hframe Hfst]].
  exists frame. split; [exact Hframe |]. split; [exact Hfst |]. split.
  - intros Hplot. unfold render. rewrite Hplot, Hframe. reflexivity.
  - intros Hplot. exists (sort_values (skew frame)).
    split; [unfold render; rewrite Hplot, Hframe; reflexivity |].
    assert (Hlab : map fst (skew frame) = selected_columns df s).
    { unfold skew. rewrite map_map. exact Hfst. }
    pose proof (sort_values_perm (skew frame)) as Hperm.
    split.
    + rewrite (Permutation_length Hperm). rewrite <- Hlab, !length_map. reflexivity.
    + rewrite <- Hlab. apply Permutation_map. exact Hperm.
Qed.

(** X11.  The preview of the overview keeps every column of the table,
    in order and with its type, and at most ten cells of each: as many
    rows as the table has, up to ten. *)
Theorem preview_shape (df : Table) :
  map fst (head 10 df) = map fst df /\
  nrows (head 10 df) = Nat.min 10 (nrows df) /\
  select_dtypes_number (head 10 df) = select_dtypes_number df /\
  Forall (fun nc => (col_len (snd nc) <= 10)%nat) (head 10 df).
Proof.
  unfold head. split; [rewrite map_map; reflexivity |]. split; [| split].
  - destruct df as [| [name [cells | cells | cells]] rest]; [reflexivity | | |];
      cbn [map nrows fst snd col_len]; apply length_firstn.
  - induction df as [| [name [cells | cells | cells]] rest IH]; [reflexivity | | |];
      cbn [map select_dtypes_number fst snd]; rewrite IH; reflexivity.
  - apply Forall_forall. intros nc Hnc. apply in_map_iff in Hnc.
    destruct Hnc as [[name [cells | cells | cells]] [<- _]]; cbn [snd col_len];
      rewrite length_firstn; lia.
Qed.

(** ** Statistics *)

(** *** Columns too short for a statistic *)

Lemma no_value_reductions (col : list cell) :
  count col = 0%nat ->
  nanmean col = NaN /\ nanmin col = NaN /\ nanmax col = NaN /\
  forall k, quantile4 k col = NaN.
Proof.
  intros Hn. unfold nanmean, nanmin, nanmax, quantile4. rewrite Hn.
  rewrite count_valid in Hn. destruct (valid col); [| discriminate].
  repeat split.
Qed.

(** X18.  What the number of values of a column decides in its row of
    the statistics table, whatever the values are: std is NaN below two
    values, skewness below three and kurtosis below four; a column
    without any value has count 0.0 and NaN in every other field. *)
Theorem short_column_statistics (frame : NumFrame) (name : string) (col : list cell) :
  In (name, col) frame ->
  exists stats row,
    statistics frame = Ok stats /\ In (name, row) (rows stats) /\
    field stats "count" row = Some (Some (INR (count col))) /\
    ((count col < 2)%nat -> field stats "std" row = Some NaN) /\
    ((count col < 3)%nat -> field stats "skewness" row = Some NaN) /\
    ((count col < 4)%nat -> field stats "kurtosis" row = Some NaN) /\
    (count col = 0%nat ->
     row = [Some 0; NaN; NaN; NaN; NaN; NaN; NaN; NaN; NaN; NaN]).
Proof.
  intros Hin.
  assert (Hne : frame <> []) by (intros ->; contradiction).
  exists (mkStats stats_columns (map stats_row frame)).
  exists (snd (stats_row (name, col))).
  split; [apply statistics_ok; exact Hne |].
  split; [apply (in_map stats_row) in Hin; exact Hin |].
  read_fields.
  split; [reflexivity |].
  split; [intros Hn; rewrite (short_nanstd col Hn); reflexivity |].
  split; [intros Hn; rewrite (short_nanskew col Hn); reflexivity |].
  split; [intros Hn; rewrite (short_nankurt col Hn); reflexivity |].
  intros Hn. destruct (no_value_reductions col Hn) as (Hmean & Hmin & Hmax & Hq).
  rewrite Hmean, Hmin, Hmax, !Hq, Hn.
  rewrite short_nanstd, short_nanskew, short_nankurt by lia. reflexivity.
Qed.

Lemma short_column_statistics_witness :
  exists stats row,
    statistics [("a"%string, [NaN; NaN])] = Ok stats /\
    In ("a"%string, row) (rows stats) /\
    row = [Some 0; NaN; NaN; NaN; NaN; NaN; NaN; NaN; NaN; NaN].
Proof.
  destruct (@short_column_statistics [("a"%string, [NaN; NaN])] "a"%string [NaN; NaN]
              (or_introl eq_refl))
    as (stats & row & Hstats & Hrow & _ & _ & _ & _ & Hnone).
  exists stats, row. split; [exact Hstats |]. split; [exact Hrow |].
  apply Hnone. reflexivity.
Defined.

(** X19.  The row of a column that holds exactly one value [v], missing
    cells aside: count 1.0; mean, min, the three percentiles and max are
    all [v]; std, skewness and kurtosis are NaN. *)
Theorem single_value_row (frame : NumFrame) (name : string) (col : list cell) (v : R) :
  In (name, col) frame ->
  valid col = [v] ->
  exists stats,
    statistics frame = Ok stats /\
    In (name, [Some 1; Some v; NaN; Some v; Some v; Some v; Some v; Some v; NaN; NaN])
       (rows stats).
Proof.
  intros Hin Hv.
  assert (Hne : frame <> []) by (intros ->; contradiction).
  exists (mkStats stats_columns (map stats_row frame)).
  split; [apply statistics_ok; exact Hne |].
  assert (Hn : count col = 1%nat) by (rewrite count_valid, Hv; reflexivity).
  assert (Hrow : stats_row (name, col)
                 = (name, [Some 1; Some v; NaN; Some v; Some v; Some v; Some v; Some v;
                           NaN; NaN])).
  { unfold stats_row, describe_1d. cbn [fst snd app].
    rewrite short_nanstd, short_nanskew, short_nankurt by lia.
    assert (Hq : forall k, quantile4 k col = Some v).
    { intros k. unfold quantile4. rewrite Hv. cbn [Rsort fold_right Rinsert length].
      rewrite Nat.mul_0_r. cbn. f_equal. lra. }
    rewrite !Hq.
    unfold nanmean, nanmin, nanmax. rewrite nansum_valid, Hn, Hv.
    cbn [Nat.eqb fold_left Rsum INR]. do 3 f_equal. f_equal. lra. }
  rewrite <- Hrow. cbn [rows]. apply (in_map stats_row). exact Hin.
Qed.

Lemma single_value_row_witness :
  exists stats,
    statistics [("a"%string, [NaN; Some 5])] = Ok stats /\
    In ("a"%string, [Some 1; Some 5; NaN; Some 5; Some 5; Some 5; Some 5; Some 5; NaN; NaN])
       (rows stats).
Proof.
  apply (@single_value_row [("a"%string, [NaN; Some 5])] "a"%string [NaN; Some 5] 5).
  - left. reflexivity.
  - reflexivity.
Defined.

(** *** A column and its mirror image *)

Lemma rescale_valid (k c : R) (col : list cell) :
  valid (rescale k c col) = map (fun v => k * v + c) (valid col).
Proof.
  unfold rescale. induction col as [| [x |] rest IH]; simpl; [reflexivity | |];
    rewrite IH; reflexivity.
Qed.

Lemma rescale_count (k c : R) (col : list cell) :
  count (rescale k c col) = count col.
Proof. rewrite !count_valid, rescale_valid. apply length_map. Qed.

Lemma Rsum_map_affine (k c : R) (l : list R) :
  Rsum (map (fun v => k * v + c) l) = k * Rsum l + INR (length l) * c.
Proof.
  induction l as [| x rest IH].
  - simpl. lra.
  - change (Rsum (map (fun v => k * v + c) (x :: rest)))
      with (k * x + c + Rsum (map (fun v => k * v + c) rest)).
    change (Rsum (x :: rest)) with (x + Rsum rest).
    change (length (x :: rest)) with (S (length rest)).
    rewrite IH, S_INR. lra.
Qed.

Lemma Rsum_map_scale (k : R) (f : R -> R) (l : list R) :
  Rsum (map (fun v => k * f v) l) = k * Rsum (map f l).
Proof.
  induction l as [| x rest IH]; simpl; [lra | rewrite IH; lra].
Qed.

Lemma rescale_mean (k c : R) (col : list cell) :
  (0 < count col)%nat ->
  sample_mean (valid (rescale k c col)) = k * sample_mean (valid col) + c.
Proof.
  intros Hn. unfold sample_mean.
  rewrite rescale_valid, Rsum_map_affine, length_map.
  rewrite count_valid in Hn.
  assert (INR (length (valid col)) <> 0) by (apply not_0_INR; lia).
  field. assumption.
Qed.

(** The sum of the [p]-th powers of the deviations scales with [k ^ p]. *)
Lemma rescale_power_sum (p : nat) (k c : R) (col : list cell) :
  (0 < count col)%nat ->
  Rsum (map (fun x => (x - sample_mean (valid (rescale k c col))) ^ p)
            (valid (rescale k c col)))
  = k ^ p * Rsum (map (fun x => (x - sample_mean (valid col)) ^ p) (valid col)).
Proof.
  intros Hn. rewrite (@rescale_mean k c col Hn), rescale_valid, map_map.
  rewrite <- Rsum_map_scale. apply Rsum_map_ext. intros x _.
  rewrite <- Rpow_mult_distr. f_equal. ring.
Qed.

Lemma rescale_m2 (k c : R) (col : list cell) :
  (0 < count col)%nat -> m2 (rescale k c col) = k ^ 2 * m2 col.
Proof. intros Hn. rewrite !m2_valid. apply rescale_power_sum. exact Hn. Qed.

Lemma rescale_m3 (k c : R) (col : list cell) :
  (0 < count col)%nat -> m3 (rescale k c col) = k ^ 3 * m3 col.
Proof. intros Hn. rewrite !m3_valid. apply rescale_power_sum. exact Hn. Qed.

Lemma rescale_m4 (k c : R) (col : list cell) :
  (0 < count col)%nat -> m4 (rescale k c col) = k ^ 4 * m4 col.
Proof. intros Hn. rewrite !m4_valid. apply rescale_power_sum. exact Hn. Qed.

Lemma rescale_nankurt (k c : R) (col : list cell) :
  k <> 0 -> nankurt (rescale k c col) = nankurt col.
Proof.
  intros Hk. unfold nankurt. rewrite rescale_count.
  destruct (count col <? 4)%nat eqn:E; [reflexivity |].
  apply Nat.ltb_ge in E. cbv zeta.
  assert (Hn : (0 < count col)%nat) by lia.
  rewrite (@rescale_m2 k c col Hn), (@rescale_m4 k c col Hn).
  assert (Hcount : 4 <= INR (count col)).
  { replace 4 with (INR 4) by (simpl; lra). apply le_INR. exact E. }
  set (n := INR (count col)) in *.
  assert (Hk4 : k ^ 4 <> 0) by (apply pow_nonzero; exact Hk).
  assert (Hden : (n - 2) * (n - 3) * (k ^ 2 * m2 col) ^ 2
                 = k ^ 4 * ((n - 2) * (n - 3) * m2 col ^ 2)) by ring.
  destruct (Req_dec_T ((n - 2) * (n - 3) * (k ^ 2 * m2 col) ^ 2) 0) as [Ez | Enz];
    destruct (Req_dec_T ((n - 2) * (n - 3) * m2 col ^ 2) 0) as [Ez' | Enz'];
    try reflexivity.
  - exfalso. apply Enz'. rewrite Hden in Ez. apply Rmult_integral in Ez.
    destruct Ez; [contradiction | assumption].
  - exfalso. apply Enz. rewrite Hden, Ez'. ring.
  - assert (Hm2 : m2 col <> 0).
    { intros H0. apply Enz'. rewrite H0. ring. }
    f_equal. field. repeat split; try lra; assumption.
Qed.

(** X16.  Mirroring a column, [v] to [- v], flips the sign of its
    skewness and keeps its count, std and kurtosis. *)
Theorem mirror_statistics (col : list cell) :
  count (rescale (-1) 0 col) = count col /\
  nanstd (rescale (-1) 0 col) = nanstd col /\
  nanskew (rescale (-1) 0 col) = on_number Ropp (nanskew col) /\
  nankurt (rescale (-1) 0 col) = nankurt col.
Proof.
  split; [apply rescale_count |].
  split; [| split; [| apply rescale_nankurt; lra]].
  - rewrite !nanstd_sample_std. unfold sample_std.
    rewrite <- !count_valid, rescale_count.
    destruct (count col <? 2)%nat eqn:E; [reflexivity |].
    apply Nat.ltb_ge in E. cbv zeta.
    assert (Hn : (0 < count col)%nat) by lia.
    rewrite (@rescale_power_sum 2 (-1) 0 col Hn).
    do 3 f_equal. ring.
  - unfold nanskew. rewrite rescale_count.
    destruct (count col <? 3)%nat eqn:E; [reflexivity |].
    apply Nat.ltb_ge in E. cbv zeta.
    assert (Hn : (0 < count col)%nat) by lia.
    rewrite (@rescale_m2 (-1) 0 col Hn), (@rescale_m3 (-1) 0 col Hn).
    replace ((-1) ^ 2 * m2 col) with (m2 col) by ring.
    destruct (Req_dec_T (m2 col) 0); [reflexivity |].
    unfold on_number. f_equal. unfold Rdiv. ring.
Qed.

(** *** Witnesses of the further properties *)

Lemma scatter_drawn_for_distinct_columns_witness :
  exists x_axis y_axis xs ys,
    render three_table ["a"; "b"; "c"]%string
           (scatter_session (Some ["a"; "b"; "c"]%string))
    = ([], Ok (Scatter x_axis y_axis (as_float xs) (as_float ys)
                       (Some (picked_color (scatter_session (Some ["a"; "b"; "c"]%string)))))) /\
    x_axis <> y_axis /\
    In x_axis ["a"; "b"; "c"]%string /\ In y_axis ["a"; "b"; "c"]%string /\
    getitem three_table (Some x_axis) = Ok xs /\ getitem three_table (Some y_axis) = Ok ys.
Proof.
  apply (@scatter_drawn_for_distinct_columns three_table ["a"; "b"; "c"]%string
           (scatter_session (Some ["a"; "b"; "c"]%string)) "a"%string "b"%string).
  - reflexivity.
  - intros x Hx. exact Hx.
  - left. reflexivity.
  - right. left. reflexivity.
  - discriminate.
Defined.

Lemma scatter_single_column_key_error_witness :
  render example_table ["a"]%string one_column_scatter = ([], Raise (KeyError None)).
Proof.
  apply (@scatter_single_column_key_error example_table ["a"]%string one_column_scatter).
  - reflexivity.
  - intros x [<- | []]. left. reflexivity.
  - discriminate.
  - intros a b [<- | []] [<- | []]. reflexivity.
Defined.

Lemma distribution_without_values_raises_witness :
  render gap_table ["a"]%string distribution_session = ([], Raise no_finite_range).
Proof.
  apply (@distribution_without_values_raises gap_table ["a"]%string distribution_session
           "a"%string (Numeric [NaN; NaN])); reflexivity.
Defined.

Lemma statistics_table_shape_witness :
  exists frame stats,
    getitems example_table (selected_columns example_table (upload numbers_file None))
    = Ok frame /\
    statistics frame = Ok stats /\
    columns stats = stats_columns /\
    map fst (rows stats) = selected_columns example_table (upload numbers_file None) /\
    Forall (fun r => length (snd r) = length (columns stats)) (rows stats).
Proof.
  apply (@statistics_table_shape example_table (upload numbers_file None)).
  discriminate.
Defined.
